(** * CoPylot: the instruction-file generator [src/copylot/build_pylot.py]

    A shallow embedding of the generator and the proofs of its specified
    properties.  The script lists the module files of a directory, asks the
    user which ones to include (interactive checklist or numbered text
    prompt), concatenates the two base documents with the selected module
    documents and writes the result, keeping one backup of the previous
    output.

    Conventions of the embedding:
    - a Python [str] is a [string]; its characters are code points below 256
      (Latin-1), which is what [str.strip], [str.lower] and [int] are
      modelled on;
    - a Python [int] is a [Z];
    - [pathlib.Path] values are lists of path components from the root;
    - the filesystem is a tree of directories and text files (no symbolic
      links, permissions, metadata or encodings); a file operation fails
      only as the shape of the tree decides (a missing entry, a regular
      file in the place of a directory, a directory in the place of a
      file), and [print] does not fail;
    - the recursion limit of the interpreter is not modelled:
      [fallback_select] asks again by calling itself, and what is stated
      about it concerns the runs that stay below that limit;
    - the console is the list of lines still to be read from standard input
      and the list of chunks written to standard output;
    - exceptions are values: a function that can raise returns an
      [outcome]. *)

From Stdlib Require Import ZArith List Ascii String Lia.
From stdpp Require Import base option list gmap strings sorting pretty.

Set Warnings "-register-all".
Local Open Scope Z_scope.

(** ** Python strings *)

Module PyStr.

Definition ord (c : ascii) : N := N_of_ascii c.

(** [str.isspace] on one character: the code points below 256 that CPython's
    [Py_UNICODE_ISSPACE] accepts. *)
Definition isspace (c : ascii) : bool :=
  let n := ord c in
  ((9 <=? n) && (n <=? 13) || (28 <=? n) && (n <=? 32)
   || (n =? 133) || (n =? 160))%N.

(** [str.lower] on one character: [A-Z] and the capital letters of the
    Latin-1 supplement (all of [192..222] but the multiplication sign). *)
Definition lower_char (c : ascii) : ascii :=
  let n := ord c in
  if ((65 <=? n) && (n <=? 90)
      || (192 <=? n) && (n <=? 222) && negb (n =? 215))%N
  then ascii_of_N (n + 32) else c.

Fixpoint lower (s : string) : string :=
  match s with
  | EmptyString => EmptyString
  | String c s' => String (lower_char c) (lower s')
  end.

Fixpoint lstrip (s : string) : string :=
  match s with
  | EmptyString => EmptyString
  | String c s' => if isspace c then lstrip s' else s
  end.

Fixpoint rstrip (s : string) : string :=
  match s with
  | EmptyString => EmptyString
  | String c s' =>
      match rstrip s' with
      | EmptyString => if isspace c then EmptyString else String c EmptyString
      | r => String c r
      end
  end.

(** [s.strip()] *)
Definition strip (s : string) : string := rstrip (lstrip s).

(** [s.split(sep)] for a one-character separator: never the empty list. *)
Fixpoint split (sep : ascii) (s : string) : list string :=
  match s with
  | EmptyString => [EmptyString]
  | String c s' =>
      if Ascii.eqb c sep then EmptyString :: split sep s'
      else match split sep s' with
           | tok :: toks => String c tok :: toks
           | [] => [String c EmptyString]
           end
  end.

(** [s.endswith(suffix)] *)
Definition endswith (s suffix : string) : bool :=
  let n := String.length s in
  let k := String.length suffix in
  (k <=? n)%nat && String.eqb (substring (n - k) k s) suffix.

(** [s.rfind(".")]: the index of the last dot, if any. *)
Fixpoint rfind_dot (s : string) : option nat :=
  match s with
  | EmptyString => None
  | String c s' =>
      match rfind_dot s' with
      | Some i => Some (S i)
      | None => if Ascii.eqb c "." then Some 0%nat else None
      end
  end.

(** [c * n] *)
Fixpoint repeat_char (c : ascii) (n : nat) : string :=
  match n with
  | O => EmptyString
  | S n' => String c (repeat_char c n')
  end.

(** The format specification [{s:c^width}]: centred, the smaller half of
    the padding on the left. *)
Definition center (fill : ascii) (width : nat) (s : string) : string :=
  let pad := (width - String.length s)%nat in
  let left := Nat.div pad 2 in
  repeat_char fill left +:+ s +:+ repeat_char fill (pad - left).

(** [sep.join(l)] *)
Definition join (sep : string) (l : list string) : string :=
  String.concat sep l.

End PyStr.

(** ** Python integers and lists *)

Module PyInt.

Definition digit_value (c : ascii) : option Z :=
  let n := PyStr.ord c in
  if ((48 <=? n) && (n <=? 57))%N then Some (Z.of_N n - 48) else None.

(** What [int] skips at both ends of its argument: the ASCII white space of
    C and the non-ASCII spaces, which CPython first rewrites to a blank. *)
Definition int_space (c : ascii) : bool :=
  let n := PyStr.ord c in
  ((9 <=? n) && (n <=? 13) || (n =? 32) || (n =? 133) || (n =? 160))%N.

Fixpoint skip_space (s : string) : string :=
  match s with
  | EmptyString => EmptyString
  | String c s' => if int_space c then skip_space s' else s
  end.

(** The digit scan of [PyLong_FromString] in base 10.  [prev_us] says
    that the previous character was an underscore; [acc] is the value and
    [n] the number of digits read so far.  Single underscores may separate
    digits; after the last digit only white space may follow. *)
Fixpoint scan_digits (s : string) (prev_us : bool) (acc : Z) (n : nat)
  : option (Z * nat) :=
  match s with
  | EmptyString => if prev_us then None else Some (acc, n)
  | String c s' =>
      match digit_value c with
      | Some d => scan_digits s' false (10 * acc + d) (S n)
      | None =>
          if Ascii.eqb c "_" then
            if prev_us then None else scan_digits s' true acc n
          else if prev_us then None
          else match skip_space s with
               | EmptyString => Some (acc, n)
               | _ => None
               end
      end
  end.

Section Int.
(** [sys.get_int_max_str_digits()]: 0 switches the limit off, which is
    also how the interpreters without the limit behave; otherwise it is
    at least 640 (4300 by default). *)
Variable max_str_digits : nat.

(** [int(s)] on a [str], base 10; [None] is [ValueError]. *)
Definition int (s : string) : option Z :=
  let s := skip_space s in
  let '(sign, body) :=
    match s with
    | String "+" s' => (1, s')
    | String "-" s' => (-1, s')
    | _ => (1, s)
    end in
  match body with
  | EmptyString => None
  | String c _ =>
      match digit_value c with
      | None => None
      | Some _ =>
          match scan_digits body false 0 0 with
          | None => None
          | Some (v, n) =>
              if (640 <? n)%nat && (0 <? max_str_digits)%nat
                 && (max_str_digits <? n)%nat
              then None
              else Some (sign * v)
          end
      end
  end.
End Int.

End PyInt.

Module PyList.

(** [l[i]] with Python's negative indices; [None] is [IndexError]. *)
Definition getitem {A} (l : list A) (i : Z) : option A :=
  let n := Z.of_nat (length l) in
  if (0 <=? i) && (i <? n) then l !! Z.to_nat i
  else if (- n <=? i) && (i <? 0) then l !! Z.to_nat (n + i)
  else None.

(** [sorted(l)] on a list of [str]: code-point lexicographic order. *)
Definition sorted (l : list string) : list string :=
  merge_sort String.le l.

End PyList.

(** ** Exceptions *)

Inductive exc_class :=
| SystemExit (code : Z)
| KeyboardInterrupt
| EOFError
| ValueError
| IndexError
| NameError
| FileNotFoundError
| IsADirectoryError
| NotADirectoryError
| OtherException (name : string).

(** An exception object: its class and [str(e)]. *)
Record exn := Exn { exn_class : exc_class; exn_str : string }.

(** [isinstance(e, Exception)]: [SystemExit] and [KeyboardInterrupt] derive
    from [BaseException] only, so [except Exception] lets them through. *)
Definition is_Exception (e : exn) : bool :=
  match exn_class e with
  | SystemExit _ | KeyboardInterrupt => false
  | _ => true
  end.

Inductive outcome (A : Type) :=
| Return (a : A)
| Raise (e : exn).
Arguments Return {A} a.
Arguments Raise {A} e.

(** ** The filesystem *)

Inductive node :=
| File (content : string)
| Dir (entries : gmap string node).

Abbreviation path := (list string).

(** [str(p)] for an absolute POSIX path. *)
Definition path_str (p : path) : string :=
  match p with
  | [] => "/"
  | _ => String.concat EmptyString (map (fun c => "/" +:+ c) p)
  end.

Inductive errno := ENOENT | ENOTDIR | EISDIR.

Inductive stat_result :=
| Stat (n : node)
| StatError (e : errno).

(** Path resolution from the root [n]: a missing component is [ENOENT], a
    component below a regular file is [ENOTDIR]. *)
Fixpoint resolve (n : node) (p : path) : stat_result :=
  match p with
  | [] => Stat n
  | c :: p' =>
      match n with
      | File _ => StatError ENOTDIR
      | Dir entries =>
          match entries !! c with
          | Some n' => resolve n' p'
          | None => StatError ENOENT
          end
      end
  end.

Definition os_error (e : errno) (p : path) : exn :=
  match e with
  | ENOENT =>
      Exn FileNotFoundError
        ("[Errno 2] No such file or directory: '" +:+ path_str p +:+ "'")
  | ENOTDIR =>
      Exn NotADirectoryError
        ("[Errno 20] Not a directory: '" +:+ path_str p +:+ "'")
  | EISDIR =>
      Exn IsADirectoryError
        ("[Errno 21] Is a directory: '" +:+ path_str p +:+ "'")
  end.

(** The tree after [open(p, 'w').write(content)]: the file is created in an
    existing directory or truncated and rewritten. *)
Fixpoint write_node (n : node) (p : path) (content : string)
  : errno + node :=
  match p with
  | [] =>
      match n with
      | File _ => inr (File content)
      | Dir _ => inl EISDIR
      end
  | c :: p' =>
      match n with
      | File _ => inl ENOTDIR
      | Dir entries =>
          match entries !! c with
          | Some n' =>
              match write_node n' p' content with
              | inr n'' => inr (Dir (<[c := n'']> entries))
              | inl e => inl e
              end
          | None =>
              match p' with
              | [] => inr (Dir (<[c := File content]> entries))
              | _ => inl ENOENT
              end
          end
      end
  end.

(** The newline character as a string. *)
Definition nl : string := String "010" EmptyString.

(** ** The world and the monad of effects *)

Record console := Console { stdin : list string; stdout : list string }.

Record world := World { fs : node; tty : console }.

Definition M (A : Type) : Type := world -> outcome A * world.

Definition ret {A} (a : A) : M A := fun w => (Return a, w).

Definition bind {A B} (m : M A) (k : A -> M B) : M B :=
  fun w =>
    match m w with
    | (Return a, w') => k a w'
    | (Raise e, w') => (Raise e, w')
    end.

Definition raise {A} (e : exn) : M A := fun w => (Raise e, w).

(** [try: body  except <handles> as e: handler(e)] *)
Definition try_except {A} (body : M A) (handles : exn -> bool)
    (handler : exn -> M A) : M A :=
  fun w =>
    match body w with
    | (Raise e, w') => if handles e then handler e w' else (Raise e, w')
    | r => r
    end.

#[global] Instance M_ret : MRet M := @ret.
#[global] Instance M_bind : MBind M := fun A B k m => bind m k.

Definition write_out (chunk : string) (c : console) : console :=
  Console (stdin c) (stdout c ++ [chunk]).

(** [print(s)] *)
Definition print (s : string) : M unit :=
  fun w => (Return tt, World (fs w) (write_out (s +:+ nl) (tty w))).

(** [sys.exit(code)] *)
Definition sys_exit {A} (code : Z) : M A :=
  raise (Exn (SystemExit code) (pretty code)).

(** [p.exists()], [p.is_dir()], [p.is_file()] *)
Definition node_exists (root : node) (p : path) : bool :=
  match resolve root p with Stat _ => true | StatError _ => false end.
Definition node_is_dir (root : node) (p : path) : bool :=
  match resolve root p with Stat (Dir _) => true | _ => false end.
Definition node_is_file (root : node) (p : path) : bool :=
  match resolve root p with Stat (File _) => true | _ => false end.

Definition path_exists (p : path) : M bool :=
  fun w => (Return (node_exists (fs w) p), w).
Definition path_is_dir (p : path) : M bool :=
  fun w => (Return (node_is_dir (fs w) p), w).
Definition path_is_file (p : path) : M bool :=
  fun w => (Return (node_is_file (fs w) p), w).

(** [open(p, 'r').read()] *)
Definition read_text (p : path) : M string :=
  fun w =>
    match resolve (fs w) p with
    | Stat (File content) => (Return content, w)
    | Stat (Dir _) => (Raise (os_error EISDIR p), w)
    | StatError e => (Raise (os_error e p), w)
    end.

(** [open(p, 'w').write(content)] *)
Definition write_text (p : path) (content : string) : M unit :=
  fun w =>
    match write_node (fs w) p content with
    | inr root' => (Return tt, World root' (tty w))
    | inl e => (Raise (os_error e p), w)
    end.

(** [shutil.copy2(src, dst)]: into [dst] when [dst] is a directory. *)
Definition copy2 (src dst : path) : M unit :=
  is_dir ← path_is_dir dst;
  let dst := if (is_dir : bool) then dst ++ [List.last src EmptyString] else dst in
  data ← read_text src;
  write_text dst data.

(** [d.glob("*.md")]: the entries of the directory whose name ends in
    [.md], in the order in which the directory lists them. *)
Definition glob_md (d : path) : M (list path) :=
  fun w =>
    match resolve (fs w) d with
    | Stat (Dir entries) =>
        (Return (map (fun e => d ++ [fst e])
                   (filter (fun e => Is_true (PyStr.endswith (fst e) ".md"))
                      (map_to_list entries))), w)
    | _ => (Return [], w)
    end.

(** [p.stem]: the last component without its suffix; a name whose only dot
    is the first or the last character has no suffix. *)
Definition stem (p : path) : string :=
  let name := List.last p EmptyString in
  match PyStr.rfind_dot name with
  | Some i =>
      if (0 <? i)%nat && (i <? String.length name - 1)%nat
      then substring 0 i name else name
  | None => name
  end.

Definition on_console {A} (f : console -> outcome A * console) : M A :=
  fun w => let '(r, c) := f (tty w) in (r, World (fs w) c).

(** [for x in l: acc = body(acc, x)] *)
Fixpoint for_each {A S} (l : list A) (body : S -> A -> M S) (acc : S) : M S :=
  match l with
  | [] => mret acc
  | x :: l' => acc' ← body acc x; for_each l' body acc'
  end.

(** ** The generator *)

Definition print_header : M unit :=
  print (nl +:+ PyStr.repeat_char "=" 60);;
  print (PyStr.center "=" 60 " CoPylot - Copilot Instructions Generator ");;
  print (PyStr.repeat_char "=" 60);;
  print (nl +:+ "Generate personalized GitHub Copilot instruction files for Python projects." +:+ nl).

(** The body of the loop over the files that the glob yields. *)
Definition append_stem (available_mods : list string) (file : path)
  : M (list string) :=
  is_file ← path_is_file file;
  mret (if (is_file : bool) then available_mods ++ [stem file]
        else available_mods).

Definition get_available_mods (mods_dir : path) : M (list string) :=
  found ← path_exists mods_dir;
  missing ← (if negb found then mret true
             else is_dir ← path_is_dir mods_dir; mret (negb is_dir));
  if (missing : bool) then
    print ("Error: Libraries directory not found at " +:+ path_str mods_dir);;
    sys_exit 1
  else
    files ← glob_md mods_dir;
    available_mods ← for_each files append_stem [];
    mret (PyList.sorted available_mods).

Definition no_mods_message : string :=
  "No library instruction files found. Only base instructions will be included.".

Definition select_prompt : string :=
  nl +:+ "Select libraries to include (comma-separated numbers, 'all' for all, or 'none' for none):".

Definition invalid_message : string :=
  "Invalid selection. Please enter numbers separated by commas.".

(** [print(s)] on the console alone. *)
Definition print_line (s : string) (out : list string) : list string :=
  out ++ [s +:+ nl].

(** The lines [f"{i}. {mod}"] for [i, mod in enumerate(available_mods, 1)]. *)
Definition numbered (available_mods : list string) : list string :=
  imap (fun i mod_ => pretty (S i) +:+ ". " +:+ mod_ +:+ nl) available_mods.

(** What [fallback_select] prints before it reads: the numbered list and
    the instructions. *)
Definition menu (available_mods : list string) (out : list string)
  : list string :=
  print_line select_prompt
    (print_line (nl +:+ "Available libraries:") out ++ numbered available_mods).

Section Selector.

Variable max_str_digits : nat.

(** [[int(idx.strip()) for idx in tokens if idx.strip()]];
    [None] is the [ValueError] of the first token that is no numeral. *)
Fixpoint selected_indices (tokens : list string) : option (list Z) :=
  match tokens with
  | [] => Some []
  | idx :: tokens' =>
      match PyStr.strip idx with
      | EmptyString => selected_indices tokens'
      | tok =>
          match PyInt.int max_str_digits tok with
          | None => None
          | Some n => cons n <$> selected_indices tokens'
          end
      end
  end.

(** [[available_mods[idx - 1] for idx in indices
      if 1 <= idx <= len(available_mods)]];
    [None] is the [IndexError] of a subscript out of range. *)
Fixpoint selected_mods (available_mods : list string) (indices : list Z)
  : option (list string) :=
  match indices with
  | [] => Some []
  | idx :: indices' =>
      if (1 <=? idx) && (idx <=? Z.of_nat (length available_mods)) then
        match PyList.getitem available_mods (idx - 1) with
        | None => None
        | Some mod_ => cons mod_ <$> selected_mods available_mods indices'
        end
      else selected_mods available_mods indices'
  end.

(** [fallback_select] on the console: [lines] is what standard input
    still holds and [out] what has been written.  Each recursive call has
    read one more line; as in the source, a rejected line is answered by
    a nested call, here without the bound that the interpreter puts on
    the depth of such calls. *)
Fixpoint fallback_select_lines (available_mods : list string)
    (lines : list string) (out : list string) {struct lines}
  : outcome (list string) * console :=
  match available_mods with
  | [] => (Return [], Console lines (print_line no_mods_message out))
  | _ =>
      let out := menu available_mods out ++ ["> "] in
      match lines with
      | [] =>
          (Raise (Exn EOFError "EOF when reading a line"), Console [] out)
      | line :: lines' =>
          let selection := PyStr.lower (PyStr.strip line) in
          if String.eqb selection "all" then
            (Return available_mods, Console lines' out)
          else if String.eqb selection "none" then
            (Return [], Console lines' out)
          else
            match selected_indices (PyStr.split "," selection) with
            | Some indices =>
                match selected_mods available_mods indices with
                | Some mods => (Return mods, Console lines' out)
                | None =>
                    (Raise (Exn IndexError "list index out of range"),
                     Console lines' out)
                end
            | None =>
                fallback_select_lines available_mods lines'
                  (print_line invalid_message out)
            end
      end
  end.

Definition fallback_select (available_mods : list string)
  : M (list string) :=
  on_console
    (fun c => fallback_select_lines available_mods (stdin c) (stdout c)).

(** One entry of the checklist: [{"name": mod, "checked": False}]. *)
Record choice := Choice { name : string; checked : bool }.

(** The [questionary] module when its import succeeded:
    [checkbox(message, choices=choices).ask()], an arbitrary effectful
    operation that returns the ticked names, [None], or raises. *)
Variable questionary :
  option (string -> list choice -> M (option (list string))).

Definition HAS_QUESTIONARY : bool :=
  match questionary with Some _ => true | None => false end.

Definition checkbox_message : string :=
  "Select libraries to include (use arrow keys to navigate, space to select/deselect):".

(** [selected or []] *)
Definition or_empty (selected : option (list string)) : list string :=
  match selected with
  | Some (x :: l) => x :: l
  | _ => []
  end.

Definition interactive_select (available_mods : list string)
  : M (list string) :=
  match available_mods with
  | [] => print no_mods_message;; mret []
  | _ =>
      let choices := map (fun mod_ => Choice mod_ false) available_mods in
      try_except
        (selected ←
           match questionary with
           | Some checkbox_ask => checkbox_ask checkbox_message choices
           | None =>
               raise (Exn NameError "name 'questionary' is not defined")
           end;
         mret (or_empty selected))
        is_Exception
        (fun e =>
           print ("Error with interactive selection: " +:+ exn_str e);;
           fallback_select available_mods)
  end.

Definition select_libraries (available_mods : list string)
  : M (list string) :=
  if HAS_QUESTIONARY then interactive_select available_mods
  else
    print (nl +:+ "Note: For a better experience with an interactive checklist interface, install 'questionary':");;
    print "      pip install questionary";;
    print "      or use: python -m pip install questionary";;
    fallback_select available_mods.

End Selector.

Definition read_markdown_file (file_path : path) : M string :=
  try_except (read_text file_path)
    (fun e => match exn_class e with FileNotFoundError => true | _ => false end)
    (fun _ =>
       print ("Warning: File not found: " +:+ path_str file_path);;
       mret EmptyString).

Definition library_header : string :=
  nl +:+ "## Library-Specific Instructions" +:+ nl +:+ nl.

(** The body of the loop over the selected modules.  A module name is one
    path component (it is the stem of a file name). *)
Definition add_library (mods_dir : path) (combined_content : string)
    (mod_ : string) : M string :=
  lib_content ← read_markdown_file (mods_dir ++ [mod_ +:+ ".md"]);
  mret (match lib_content with
        | EmptyString => combined_content
        | _ => combined_content +:+ (lib_content +:+ nl +:+ nl)
        end).

Definition generate_instructions (base_dir mods_dir : path)
    (selected_mods : list string) : M string :=
  universal_content ← read_markdown_file (base_dir ++ ["universal.md"]);
  py_core_content ← read_markdown_file (base_dir ++ ["py_core.md"]);
  let combined_content :=
    universal_content +:+ nl +:+ nl +:+ py_core_content +:+ nl in
  match selected_mods with
  | [] => mret combined_content
  | _ =>
      for_each selected_mods (add_library mods_dir)
        (combined_content +:+ library_header)
  end.

Definition output_name : string := "copilot-instructions.md".
Definition backup_name : string := "copilot-instructions.md.bak".

Definition save_instructions (content : string) (output_path : path)
  : M unit :=
  let output_file := output_path ++ [output_name] in
  found ← path_exists output_file;
  (if (found : bool) then
     let backup_file := output_path ++ [backup_name] in
     copy2 output_file backup_file;;
     print ("Backed up existing file to " +:+ path_str backup_file)
   else mret tt);;
  write_text output_file content;;
  print (nl +:+ "Successfully generated instructions at " +:+ path_str output_file).

(** [main], with [script_dir] the resolved root of the installation. *)
Definition main (max_str_digits : nat)
    (questionary : option (string -> list choice -> M (option (list string))))
    (script_dir : path) : M unit :=
  print_header;;
  let base_dir := script_dir ++ ["src"; "uni"] in
  let mods_dir := script_dir ++ ["src"; "mods"] in
  available_mods ← get_available_mods mods_dir;
  selected ← select_libraries max_str_digits questionary available_mods;
  match selected with
  | [] => print (nl +:+ "Generating instructions with base content only.")
  | _ => print (nl +:+ "Generating instructions with: " +:+ PyStr.join ", " selected)
  end;;
  instructions ← generate_instructions base_dir mods_dir selected;
  save_instructions instructions script_dir;;
  print (nl +:+ "Done! You can now copy the contents of copilot-instructions.md to your project.");;
  print "Alternatively, you can add it to your .vscode/settings.json file.".

(** The exit status of the process that ran [main]: an uncaught
    [SystemExit(code)] ends it with [code], any other uncaught exception
    with a non-zero status. *)
Definition exit_status (r : outcome unit) : Z :=
  match r with
  | Return _ => 0
  | Raise e =>
      match exn_class e with
      | SystemExit code => code
      | KeyboardInterrupt => 130
      | _ => 1
      end
  end.

(** ** The assembler of the specification *)

(** The specification's [assemble]: the base part, then, for a non-empty
    selection, the section header and the content of the selected modules
    in the order of the catalog, each followed by two newlines; a module
    with empty content is skipped.  [content] gives a module's text. *)
Definition assemble_spec (universal core : string) (content : string -> string)
    (catalog selection : list string) : string :=
  universal +:+ nl +:+ nl +:+ core +:+ nl +:+
  match selection with
  | [] => EmptyString
  | _ =>
      library_header +:+
      String.concat EmptyString
        (map (fun m => content m +:+ nl +:+ nl)
           (filter (fun m => m ∈ selection /\ content m <> EmptyString) catalog))
  end.

(** ** Observations used in the statements *)

(** The world after [chunks] more have been written to standard output. *)
Definition emit (chunks : list string) (w : world) : world :=
  World (fs w) (Console (stdin (tty w)) (stdout (tty w) ++ chunks)).

(** The text the Document Reader yields for a path: the content of the
    file there, the empty string otherwise. *)
Definition doc (root : node) (p : path) : string :=
  match resolve root p with
  | Stat (File content) => content
  | _ => EmptyString
  end.

(** The paths at which [read_markdown_file] returns: a regular file, or
    nothing at all (the one error it handles). *)
Definition readable (root : node) (p : path) : Prop :=
  match resolve root p with
  | Stat (File _) | StatError ENOENT => True
  | _ => False
  end.

(** The three kinds of document the assembler reads. *)
Definition universal_doc (base_dir : path) (root : node) : string :=
  doc root (base_dir ++ ["universal.md"]).
Definition py_core_doc (base_dir : path) (root : node) : string :=
  doc root (base_dir ++ ["py_core.md"]).
Definition module_doc (mods_dir : path) (root : node) (m : string) : string :=
  doc root (mods_dir ++ [m +:+ ".md"]).

(** The mandatory first part of every output. *)
Definition base_part (base_dir : path) (root : node) : string :=
  universal_doc base_dir root +:+ nl +:+ nl +:+ py_core_doc base_dir root +:+ nl.

(** Every document the assembler reads for [selection] can be read. *)
Definition all_readable (base_dir mods_dir : path) (root : node)
    (selection : list string) : Prop :=
  readable root (base_dir ++ ["universal.md"])
  /\ readable root (base_dir ++ ["py_core.md"])
  /\ Forall (fun m => readable root (mods_dir ++ [m +:+ ".md"])) selection.

Definition is_file_node (n : node) : bool :=
  match n with File _ => true | Dir _ => false end.

(** The names of the regular files of a directory that end in [.md], in
    the order in which the directory lists them. *)
Definition md_files (entries : gmap string node) : list string :=
  map fst
    (filter (fun e => Is_true (is_file_node (snd e)))
       (filter (fun e => Is_true (PyStr.endswith (fst e) ".md"))
          (map_to_list entries))).

(** What [get_available_mods] prints before it gives up. *)
Definition not_found_message (mods_dir : path) : string :=
  ("Error: Libraries directory not found at " +:+ path_str mods_dir) +:+ nl.

(** An entry of a directory that is no directory: absent or a file. *)
Definition not_dir (entry : option node) : Prop :=
  match entry with
  | Some (Dir _) => False
  | _ => True
  end.

(** The entries of the output directory once the previous output, if
    there is one, has been copied to the backup name. *)
Definition backed_up (entries : gmap string node) : gmap string node :=
  match entries !! output_name with
  | Some (File previous) => <[backup_name := File previous]> entries
  | _ => entries
  end.

(** The title line of the section of the selected modules. *)
Definition header_title : string := "## Library-Specific Instructions".

(** What one selected module adds to the output. *)
Definition block (content : string) : string :=
  match content with
  | EmptyString => EmptyString
  | _ => content +:+ nl +:+ nl
  end.

(** The number of positions of [s] at which [sub] occurs. *)
Fixpoint occurrences (sub s : string) : nat :=
  match s with
  | EmptyString => if String.prefix sub EmptyString then 1 else 0
  | String _ s' =>
      ((if String.prefix sub s then 1 else 0) + occurrences sub s')%nat
  end.

(** A line made of white space only (the empty line included). *)
Fixpoint all_space (s : string) : bool :=
  match s with
  | EmptyString => true
  | String c s' => PyStr.isspace c && all_space s'
  end.

(** ** Further observations *)

(** The documents that [generate_instructions] reads for a selection list,
    in the order in which it reads them. *)
Definition documents_read (base_dir mods_dir : path) (selection : list string)
  : list path :=
  [base_dir ++ ["universal.md"]; base_dir ++ ["py_core.md"]]
  ++ map (fun m => mods_dir ++ [m +:+ ".md"]) selection.

(** The line that the Document Reader prints for a path it does not find,
    as a list of chunks: empty when the path is found. *)
Definition missing_warning (root : node) (p : path) : list string :=
  match resolve root p with
  | StatError ENOENT => [("Warning: File not found: " +:+ path_str p) +:+ nl]
  | _ => []
  end.

(** The exception with which opening [p] for reading fails. *)
Definition read_error (root : node) (p : path) : exn :=
  match resolve root p with
  | StatError e => os_error e p
  | Stat _ => os_error EISDIR p
  end.

(** The text for a selection list: the base part, and for a non-empty list
    the header and one block per entry. *)
Definition assembled (base_dir mods_dir : path) (root : node)
    (selection : list string) : string :=
  base_part base_dir root +:+
  match selection with
  | [] => EmptyString
  | _ =>
      library_header +:+
      String.concat EmptyString
        (map (fun m => block (module_doc mods_dir root m)) selection)
  end.

(** A string of decimal digits only. *)
Fixpoint all_digits (s : string) : bool :=
  match s with
  | EmptyString => true
  | String c s' =>
      match PyInt.digit_value c with
      | Some _ => all_digits s'
      | None => false
      end
  end.

(** What [print_header] writes. *)
Definition header_lines : list string :=
  [(nl +:+ PyStr.repeat_char "=" 60) +:+ nl;
   PyStr.center "=" 60 " CoPylot - Copilot Instructions Generator " +:+ nl;
   PyStr.repeat_char "=" 60 +:+ nl;
   (nl +:+ "Generate personalized GitHub Copilot instruction files for Python projects." +:+ nl) +:+ nl].

(** The catalog that [get_available_mods] computes from the entries of the
    modules directory. *)
Definition catalog_of (entries : gmap string node) : list string :=
  PyList.sorted (map (fun name => stem [name]) (md_files entries)).

(** The interactive prompt, when there is one, only asks: it leaves the
    filesystem as it finds it. *)
Definition keeps_files
    (questionary : option (string -> list choice -> M (option (list string))))
  : Prop :=
  match questionary with
  | Some checkbox_ask =>
      forall message choices w, fs (snd (checkbox_ask message choices w)) = fs w
  | None => True
  end.

(** ** Example worlds *)

(** The installation of the end-to-end scenario, with two entries of the
    modules directory that are no modules. *)
Definition example_app : gmap string node :=
  {[ "src" := Dir {[
     "uni" := Dir {[ "universal.md" := File "U"; "py_core.md" := File "C" ]};
     "mods" := Dir {[ "foo.md" := File "F"; "bar.md" := File "B";
                       "notes.txt" := File "N"; "sub.md" := Dir ∅ ]} ]} ]}.

Definition example_fs : node := Dir {[ "app" := Dir example_app ]}.

(** A catalog of three modules. *)
Definition abc_fs : node :=
  Dir {[ "app" := Dir {[ "src" := Dir {[
     "uni" := Dir {[ "universal.md" := File "U"; "py_core.md" := File "P" ]};
     "mods" := Dir {[ "a.md" := File "alpha"; "b.md" := File "beta";
                       "c.md" := File "gamma" ]} ]} ]} ]}.

(** Base documents that quote the section header themselves. *)
Definition header_fs : node :=
  Dir {[ "app" := Dir {[ "src" := Dir {[
     "uni" := Dir {[ "universal.md" := File "## Library-Specific Instructions";
                      "py_core.md" := File "P" ]};
     "mods" := Dir ∅ ]} ]} ]}.

Definition base_ex : path := ["app"; "src"; "uni"].
Definition mods_ex : path := ["app"; "src"; "mods"].

(** Three checklists: one that is cancelled, one that fails with an
    ordinary error, one that is interrupted. *)
Definition boom : exn := Exn (OtherException "RuntimeError") "boom".
Definition interrupt : exn := Exn KeyboardInterrupt EmptyString.
Definition cancelled_ask (_ : string) (_ : list choice)
  : M (option (list string)) := fun w => (Return None, emit ["? "] w).
Definition failing_ask (_ : string) (_ : list choice)
  : M (option (list string)) := fun w => (Raise boom, w).
Definition interrupted_ask (_ : string) (_ : list choice)
  : M (option (list string)) := fun w => (Raise interrupt, w).

(** The entries of the modules directory of [example_fs]. *)
Definition example_mods : gmap string node :=
  {[ "foo.md" := File "F"; "bar.md" := File "B";
     "notes.txt" := File "N"; "sub.md" := Dir ∅ ]}.

Definition example_world (input : list string) : world :=
  World example_fs (Console input []).

Example strip_ex : PyStr.strip " 1, 3 " = "1, 3".
Proof. reflexivity. Qed.
Example split_ex : PyStr.split "," "1,,2" = ["1"; EmptyString; "2"].
Proof. reflexivity. Qed.
Example split_empty_ex : PyStr.split "," EmptyString = [EmptyString].
Proof. reflexivity. Qed.
Example int_ex : PyInt.int 4300 "1_0" = Some 10.
Proof. reflexivity. Qed.
Example int_neg_ex : PyInt.int 4300 "-07" = Some (-7).
Proof. reflexivity. Qed.
Example int_bad_ex : PyInt.int 4300 "abc" = None /\ PyInt.int 4300 "1__0" = None
                     /\ PyInt.int 4300 "+ 5" = None /\ PyInt.int 4300 EmptyString = None.
Proof. repeat split. Qed.
Example sorted_ex : PyList.sorted ["foo"; "bar"; "Baz"] = ["Baz"; "bar"; "foo"].
Proof. reflexivity. Qed.
Example center_ex :
  PyStr.center "=" 12 " ab " = "==== ab ====".
Proof. reflexivity. Qed.

Example catalog_ex :
  fst (get_available_mods ["app"; "src"; "mods"] (example_world []))
  = Return ["bar"; "foo"].
Proof. vm_compute. reflexivity. Qed.

Example generate_ex :
  fst (generate_instructions ["app"; "src"; "uni"] ["app"; "src"; "mods"]
         ["bar"; "foo"] (example_world []))
  = Return ("U" +:+ nl +:+ nl +:+ "C" +:+ nl +:+ nl
            +:+ "## Library-Specific Instructions" +:+ nl +:+ nl
            +:+ "B" +:+ nl +:+ nl +:+ "F" +:+ nl +:+ nl).
Proof. vm_compute. reflexivity. Qed.

Example main_ex :
  let '(r, w) := main 4300 None ["app"] (example_world ["x"; "2,1"]) in
  exit_status r = 0
  /\ resolve (fs w) ["app"; "copilot-instructions.md"]
     = Stat (File ("U" +:+ nl +:+ nl +:+ "C" +:+ nl +:+ nl
            +:+ "## Library-Specific Instructions" +:+ nl +:+ nl
            +:+ "F" +:+ nl +:+ nl +:+ "B" +:+ nl +:+ nl))
  /\ stdin (tty w) = [].
Proof. vm_compute. repeat split. Qed.

(** ** Basic facts *)

Lemma append_nil_r (s : string) : s +:+ EmptyString = s.
Proof.
  induction s as [|c s IH]; [done|].
  change (String c (s +:+ EmptyString) = String c s). by rewrite IH.
Qed.

Lemma append_assoc (s1 s2 s3 : string) :
  (s1 +:+ s2) +:+ s3 = s1 +:+ (s2 +:+ s3).
Proof.
  induction s1 as [|c s1 IH]; [done|].
  change (String c ((s1 +:+ s2) +:+ s3) = String c (s1 +:+ (s2 +:+ s3))).
  by rewrite IH.
Qed.

Lemma emit_nil (w : world) : emit [] w = w.
Proof. destruct w as [root [i o]]. unfold emit; simpl. by rewrite app_nil_r. Qed.

Lemma emit_emit (a b : list string) (w : world) :
  emit b (emit a w) = emit (a ++ b) w.
Proof. unfold emit; simpl. by rewrite app_assoc. Qed.

Lemma fs_emit (chunks : list string) (w : world) : fs (emit chunks w) = fs w.
Proof. done. Qed.

Lemma print_emit (s : string) (w : world) :
  print s w = (Return tt, emit [s +:+ nl] w).
Proof. done. Qed.

Ltac unfold_monad :=
  unfold mbind, M_bind, bind, mret, M_ret, ret, raise, try_except in *.

(** ** The Document Reader *)

Lemma read_markdown_file_readable (w : world) (p : path) :
  readable (fs w) p ->
  exists warnings,
    read_markdown_file p w = (Return (doc (fs w) p), emit warnings w).
Proof.
  unfold readable, read_markdown_file, doc, read_text. unfold_monad.
  destruct (resolve (fs w) p) as [[content|entries]|[]]; simpl; try done.
  - exists []. by rewrite emit_nil.
  - intros _. by eexists [_].
Qed.

(** ** The Assembler *)

Section Assembler.

Variables base_dir mods_dir : path.

Lemma add_library_readable (w : world) (acc m : string) :
  readable (fs w) (mods_dir ++ [m +:+ ".md"]) ->
  exists warnings,
    add_library mods_dir acc m w
    = (Return (acc +:+ block (module_doc mods_dir (fs w) m)), emit warnings w).
Proof.
  intros Hr. unfold add_library. unfold_monad.
  destruct (read_markdown_file_readable w _ Hr) as [warnings ->].
  exists warnings. unfold module_doc, block.
  destruct (doc (fs w) _); simpl; [by rewrite append_nil_r | done].
Qed.

Lemma for_each_add_library (selection : list string) :
  forall (w : world) (acc : string),
    Forall (fun m => readable (fs w) (mods_dir ++ [m +:+ ".md"])) selection ->
    exists warnings,
      for_each selection (add_library mods_dir) acc w
      = (Return (acc +:+ String.concat EmptyString
                   (map (fun m => block (module_doc mods_dir (fs w) m)) selection)),
         emit warnings w).
Proof.
  induction selection as [|m selection IH]; intros w acc Hall; simpl.
  - exists []. by rewrite emit_nil, append_nil_r.
  - inversion Hall as [|? ? Hm Hrest]; subst.
    unfold_monad.
    destruct (add_library_readable w acc m Hm) as [w1 ->].
    destruct (IH (emit w1 w) (acc +:+ block (module_doc mods_dir (fs w) m)))
      as [w2 ->]; [done|].
    exists (w1 ++ w2). rewrite emit_emit, fs_emit. f_equal. f_equal.
    rewrite append_assoc. f_equal.
    destruct selection; simpl; [|done].
    by rewrite !append_nil_r.
Qed.

(** The output of [generate_instructions], whenever its documents can be
    read: the base part, then for a non-empty selection list the header
    and one block per entry of the list, in the order of the list. *)
Lemma generate_instructions_text (w : world) (selection : list string) :
  all_readable base_dir mods_dir (fs w) selection ->
  exists warnings,
    generate_instructions base_dir mods_dir selection w
    = (Return
         (base_part base_dir (fs w) +:+
          match selection with
          | [] => EmptyString
          | _ =>
              library_header +:+
              String.concat EmptyString
                (map (fun m => block (module_doc mods_dir (fs w) m)) selection)
          end),
       emit warnings w).
Proof.
  intros (Hu & Hc & Hm). unfold generate_instructions. unfold_monad.
  destruct (read_markdown_file_readable w _ Hu) as [w1 ->].
  destruct (read_markdown_file_readable (emit w1 w) _ Hc) as [w2 ->].
  rewrite emit_emit, fs_emit.
  unfold base_part, universal_doc, py_core_doc.
  destruct selection as [|m selection].
  - exists (w1 ++ w2). by rewrite !append_assoc, append_nil_r.
  - destruct (for_each_add_library (m :: selection) (emit (w1 ++ w2) w)
                ((doc (fs w) (base_dir ++ ["universal.md"]) +:+ nl +:+ nl
                  +:+ doc (fs w) (base_dir ++ ["py_core.md"]) +:+ nl)
                 +:+ library_header)) as [w3 H3]; [done|].
    rewrite H3. exists ((w1 ++ w2) ++ w3).
    by rewrite emit_emit, fs_emit, !append_assoc.
Qed.

End Assembler.

Lemma concat_cons (x : string) (l : list string) :
  String.concat EmptyString (x :: l) = x +:+ String.concat EmptyString l.
Proof. destruct l; simpl; [by rewrite append_nil_r | done]. Qed.

Lemma concat_app (l1 l2 : list string) :
  String.concat EmptyString (l1 ++ l2) = String.concat EmptyString l1 +:+ String.concat EmptyString l2.
Proof.
  induction l1 as [|x l1 IH]; [done|].
  rewrite <- app_comm_cons, !concat_cons, IH. by rewrite append_assoc.
Qed.

Lemma concat_blocks (f : string -> string) (l : list string) :
  String.concat EmptyString (map (fun m => block (f m)) l)
  = String.concat EmptyString
      (map (fun m => f m +:+ nl +:+ nl)
         (filter (fun m => f m <> EmptyString) l)).
Proof.
  induction l as [|m l IH]; [done|].
  rewrite filter_cons. simpl map at 1. rewrite concat_cons, IH.
  destruct (decide (f m <> EmptyString)) as [Hne|Heq].
  - simpl map. rewrite concat_cons. f_equal.
    unfold block. by destruct (f m).
  - apply dec_stable in Heq. by rewrite Heq.
Qed.

Ltac solve_readable :=
  repeat match goal with
    | |- _ /\ _ => split
    | |- Forall _ _ => constructor
    | |- all_readable _ _ _ _ => unfold all_readable
    | |- readable _ _ => vm_compute; exact I
    end.

(** C4: whatever the selection list (the empty one included) and whatever
    the contents of the documents, the assembled output starts with the
    universal content, a blank line, the core content and a newline, in
    this order; the selection only decides what follows.  The universal
    and core contents are the contents of the files [universal.md] and
    [py_core.md] of the base directory, as the filesystem holds them (the
    empty string for a file that is missing, which costs a warning). *)
Theorem C4_base_documents_first (base_dir mods_dir : path) (w : world)
    (selection : list string) :
  all_readable base_dir mods_dir (fs w) selection ->
  exists rest warnings,
    generate_instructions base_dir mods_dir selection w
    = (Return (universal_doc base_dir (fs w) +:+ nl +:+ nl +:+
               py_core_doc base_dir (fs w) +:+ nl +:+ rest),
       emit warnings w)
    /\ (forall universal,
          resolve (fs w) (base_dir ++ ["universal.md"]) = Stat (File universal) ->
          universal_doc base_dir (fs w) = universal)
    /\ (forall core,
          resolve (fs w) (base_dir ++ ["py_core.md"]) = Stat (File core) ->
          py_core_doc base_dir (fs w) = core)
    /\ (resolve (fs w) (base_dir ++ ["universal.md"]) = StatError ENOENT ->
        universal_doc base_dir (fs w) = EmptyString)
    /\ (resolve (fs w) (base_dir ++ ["py_core.md"]) = StatError ENOENT ->
        py_core_doc base_dir (fs w) = EmptyString).
Proof.
  intros Hall.
  destruct (generate_instructions_text base_dir mods_dir w selection Hall)
    as [warnings Hgen].
  eexists _, warnings. split.
  { rewrite Hgen. unfold base_part. by rewrite !append_assoc. }
  unfold universal_doc, py_core_doc, doc.
  split; [by intros universal ->|]. split; [by intros core ->|].
  split; by intros ->.
Qed.

Lemma C4_witness :
  all_readable base_ex mods_ex (fs (example_world [])) ["foo"]
  /\ exists rest warnings,
       generate_instructions base_ex mods_ex ["foo"] (example_world [])
       = (Return (universal_doc base_ex (fs (example_world [])) +:+ nl +:+ nl +:+
                  py_core_doc base_ex (fs (example_world [])) +:+ nl +:+ rest),
          emit warnings (example_world []))
       /\ (forall universal,
             resolve (fs (example_world [])) (base_ex ++ ["universal.md"])
             = Stat (File universal) ->
             universal_doc base_ex (fs (example_world [])) = universal)
       /\ (forall core,
             resolve (fs (example_world [])) (base_ex ++ ["py_core.md"])
             = Stat (File core) ->
             py_core_doc base_ex (fs (example_world [])) = core)
       /\ (resolve (fs (example_world [])) (base_ex ++ ["universal.md"])
           = StatError ENOENT ->
           universal_doc base_ex (fs (example_world [])) = EmptyString)
       /\ (resolve (fs (example_world [])) (base_ex ++ ["py_core.md"])
           = StatError ENOENT ->
           py_core_doc base_ex (fs (example_world [])) = EmptyString).
Proof.
  split; [solve_readable|].
  apply (C4_base_documents_first base_ex mods_ex (example_world []) ["foo"]).
  solve_readable.
Defined.

(** C1, as amended: [generate_instructions] does not reorder.  For a
    non-empty selection list it writes the base part, the section header
    and then one block per entry in the order of the list it is given; the
    result is the catalog-ordered text of the specification when the list
    is itself the catalog restricted to the selected modules. *)
Theorem C1_order_of_the_selection_list (base_dir mods_dir : path) (w : world)
    (catalog selection : list string) :
  all_readable base_dir mods_dir (fs w) selection ->
  selection <> [] ->
  exists text warnings,
    generate_instructions base_dir mods_dir selection w
    = (Return text, emit warnings w)
    /\ text = base_part base_dir (fs w) +:+ library_header +:+
              String.concat EmptyString
                (map (fun m => block (module_doc mods_dir (fs w) m)) selection)
    /\ (selection = filter (fun m => m ∈ selection) catalog ->
        text = assemble_spec (universal_doc base_dir (fs w))
                 (py_core_doc base_dir (fs w)) (module_doc mods_dir (fs w))
                 catalog selection).
Proof.
  intros Hall Hne.
  destruct (generate_instructions_text base_dir mods_dir w selection Hall)
    as [warnings Hgen].
  eexists _, warnings. split; [exact Hgen|].
  destruct selection as [|m0 selection]; [done|]. split; [done|].
  intros Hcat. unfold assemble_spec, base_part.
  rewrite !append_assoc. do 6 f_equal.
  rewrite concat_blocks. do 2 f_equal.
  rewrite Hcat at 1. rewrite list_filter_filter.
  apply list_filter_iff. intros m. tauto.
Qed.

Lemma C1_witness :
  all_readable base_ex mods_ex (fs (example_world [])) ["bar"; "foo"]
  /\ ["bar"; "foo"] <> []
  /\ ["bar"; "foo"] = filter (fun m => m ∈ ["bar"; "foo"]) ["bar"; "baz"; "foo"]
  /\ exists text warnings,
       generate_instructions base_ex mods_ex ["bar"; "foo"] (example_world [])
       = (Return text, emit warnings (example_world []))
       /\ text = base_part base_ex (fs (example_world [])) +:+ library_header +:+
                 String.concat EmptyString
                   (map (fun m => block (module_doc mods_ex (fs (example_world [])) m))
                      ["bar"; "foo"])
       /\ text = assemble_spec (universal_doc base_ex (fs (example_world [])))
                   (py_core_doc base_ex (fs (example_world [])))
                   (module_doc mods_ex (fs (example_world [])))
                   ["bar"; "baz"; "foo"] ["bar"; "foo"].
Proof.
  split; [solve_readable|]. split; [discriminate|]. split; [reflexivity|].
  destruct (C1_order_of_the_selection_list base_ex mods_ex (example_world [])
              ["bar"; "baz"; "foo"] ["bar"; "foo"])
    as (text & warnings & Hgen & Htext & Hcat);
    [solve_readable | discriminate |].
  exists text, warnings. split; [exact Hgen|]. split; [exact Htext|].
  apply Hcat. reflexivity.
Defined.

(** C1 as stated fails: against the catalog [a, b, c] the text selector
    turns the line "3,1" into the list [c, a], and the output then has the
    content of [c] before the content of [a], which is not the
    catalog-ordered text of the specification. *)
Lemma C1_counterexample :
  let w := World abc_fs (Console ["3,1"] []) in
  exists w1 w2 text,
    fst (get_available_mods mods_ex w) = Return ["a"; "b"; "c"]
    /\ fallback_select 4300 ["a"; "b"; "c"] w = (Return ["c"; "a"], w1)
    /\ generate_instructions base_ex mods_ex ["c"; "a"] w1 = (Return text, w2)
    /\ text = "U" +:+ nl +:+ nl +:+ "P" +:+ nl +:+ library_header
              +:+ "gamma" +:+ nl +:+ nl +:+ "alpha" +:+ nl +:+ nl
    /\ assemble_spec "U" "P" (module_doc mods_ex abc_fs) ["a"; "b"; "c"] ["c"; "a"]
       = "U" +:+ nl +:+ nl +:+ "P" +:+ nl +:+ library_header
         +:+ "alpha" +:+ nl +:+ nl +:+ "gamma" +:+ nl +:+ nl
    /\ text <> assemble_spec "U" "P" (module_doc mods_ex abc_fs)
                 ["a"; "b"; "c"] ["c"; "a"].
Proof.
  eexists _, _, _.
  split; [by vm_compute|]. split; [by vm_compute|]. split; [by vm_compute|].
  split; [by vm_compute|]. split; [by vm_compute|].
  vm_compute. discriminate.
Qed.

(** The subscript [available_mods[idx - 1]] is only evaluated under the
    guard [1 <= idx <= len(available_mods)], so it never fails: the second
    comprehension keeps the module of every index in range and drops the
    others. *)
Lemma selected_mods_total (available_mods : list string) (indices : list Z) :
  selected_mods available_mods indices
  = Some (omap (fun idx =>
                  if (1 <=? idx) && (idx <=? Z.of_nat (length available_mods))
                  then available_mods !! Z.to_nat (idx - 1) else None)
            indices).
Proof.
  induction indices as [|idx indices IH]; [done|].
  simpl. rewrite IH.
  destruct ((1 <=? idx) && (idx <=? Z.of_nat (length available_mods))) eqn:Hin;
    [|done].
  apply andb_true_iff in Hin as [H1 H2].
  apply Z.leb_le in H1, H2.
  unfold PyList.getitem.
  replace ((0 <=? idx - 1) && (idx - 1 <? Z.of_nat (length available_mods)))
    with true by (symmetry; apply andb_true_iff; split;
                  [apply Z.leb_le | apply Z.ltb_lt]; lia).
  destruct (lookup_lt_is_Some_2 available_mods (Z.to_nat (idx - 1)))
    as [m Hm]; [lia|].
  by rewrite Hm.
Qed.

(** The text selector keeps one entry for every index in range, repeated
    indices included. *)
Lemma selected_mods_length (available_mods : list string) (indices : list Z) :
  exists mods,
    selected_mods available_mods indices = Some mods
    /\ length mods
       = length (filter (fun idx => 1 <= idx <= Z.of_nat (length available_mods))
                   indices).
Proof.
  rewrite selected_mods_total. eexists. split; [done|].
  induction indices as [|idx indices IH]; [done|].
  rewrite filter_cons. cbn [omap list_omap].
  destruct (decide (1 <= idx <= Z.of_nat (length available_mods))) as [Hin|Hout].
  - replace ((1 <=? idx) && (idx <=? Z.of_nat (length available_mods)))
      with true by (symmetry; apply andb_true_iff; split; apply Z.leb_le; lia).
    destruct (lookup_lt_is_Some_2 available_mods (Z.to_nat (idx - 1)))
      as [m Hm]; [lia|].
    rewrite Hm. simpl. by rewrite IH.
  - replace ((1 <=? idx) && (idx <=? Z.of_nat (length available_mods)))
      with false; [done|].
    symmetry. apply andb_false_iff.
    destruct (decide (1 <= idx)); [right | left];
      [apply Z.leb_gt | apply Z.leb_gt]; lia.
Qed.

(** C2, as amended: nothing removes duplicates.  Every entry of the
    selection list appends the block of its module, whether or not the
    module already occurs earlier in the list; so a module's content is
    written once for each occurrence of its name in the list, and exactly
    once when the list names it once.  The text selector returns one
    entry for every index in range that was typed. *)
Theorem C2_one_block_per_entry (base_dir mods_dir : path) (w : world)
    (selection : list string) (m : string) :
  all_readable base_dir mods_dir (fs w) (selection ++ [m]) ->
  selection <> [] ->
  exists text warnings warnings',
    generate_instructions base_dir mods_dir selection w
    = (Return text, emit warnings w)
    /\ generate_instructions base_dir mods_dir (selection ++ [m]) w
       = (Return (text +:+ block (module_doc mods_dir (fs w) m)),
          emit warnings' w)
    /\ forall available_mods indices,
         exists mods,
           selected_mods available_mods indices = Some mods
           /\ length mods
              = length (filter (fun idx =>
                                  1 <= idx <= Z.of_nat (length available_mods))
                          indices).
Proof.
  intros (Hu & Hc & Hm) Hne.
  apply Forall_app in Hm as [Hsel Hlast].
  destruct (generate_instructions_text base_dir mods_dir w selection)
    as [w1 H1]; [done|].
  destruct (generate_instructions_text base_dir mods_dir w (selection ++ [m]))
    as [w2 H2]; [split_and!; try done; by apply Forall_app|].
  eexists _, w1, w2. split; [exact H1|].
  split; [|apply selected_mods_length].
  rewrite H2. do 2 f_equal.
  destruct selection as [|m0 selection]; [done|].
  rewrite <- app_comm_cons, app_comm_cons, map_app, concat_app.
  simpl map at 2. rewrite concat_cons.
  change (String.concat EmptyString []) with EmptyString.
  by rewrite append_nil_r, !append_assoc.
Qed.

Lemma C2_witness :
  all_readable base_ex mods_ex (fs (example_world [])) (["foo"] ++ ["foo"])
  /\ ["foo"] <> []
  /\ exists text warnings warnings',
       generate_instructions base_ex mods_ex ["foo"] (example_world [])
       = (Return text, emit warnings (example_world []))
       /\ generate_instructions base_ex mods_ex (["foo"] ++ ["foo"])
            (example_world [])
          = (Return (text +:+ block (module_doc mods_ex (fs (example_world [])) "foo")),
             emit warnings' (example_world []))
       /\ forall available_mods indices,
            exists mods,
              selected_mods available_mods indices = Some mods
              /\ length mods
                 = length (filter (fun idx =>
                                     1 <= idx <= Z.of_nat (length available_mods))
                             indices).
Proof.
  split; [solve_readable|]. split; [discriminate|].
  apply (C2_one_block_per_entry base_ex mods_ex (example_world []) ["foo"] "foo");
    [solve_readable | discriminate].
Defined.

(** C2 as stated fails: against the catalog [a, b, c] the text selector
    turns the line "1,1" into the list [a, a], and the content of [a] is
    then written twice. *)
Lemma C2_counterexample :
  let w := World abc_fs (Console ["1,1"] []) in
  exists w1 w2 text,
    fallback_select 4300 ["a"; "b"; "c"] w = (Return ["a"; "a"], w1)
    /\ generate_instructions base_ex mods_ex ["a"; "a"] w1 = (Return text, w2)
    /\ text = "U" +:+ nl +:+ nl +:+ "P" +:+ nl +:+ library_header
              +:+ "alpha" +:+ nl +:+ nl +:+ "alpha" +:+ nl +:+ nl
    /\ occurrences "alpha" text = 2%nat
    /\ text <> assemble_spec "U" "P" (module_doc mods_ex abc_fs)
                 ["a"; "b"; "c"] ["a"; "a"].
Proof.
  eexists _, _, _.
  split; [by vm_compute|]. split; [by vm_compute|]. split; [by vm_compute|].
  split; [by vm_compute|]. vm_compute. discriminate.
Qed.

(** C5, as amended: for the empty selection list the output is exactly the
    base part (universal content, blank line, core content, newline) and
    nothing is appended to it, so the header occurs in the output only
    where the base contents themselves contain it; and a
    selected module whose content reads back empty appends nothing: the
    text is that of the list without it, provided that list is not
    empty. *)
Theorem C5_nothing_for_empty (base_dir mods_dir : path) (w : world)
    (before after : list string) (m : string) :
  all_readable base_dir mods_dir (fs w) (before ++ m :: after) ->
  module_doc mods_dir (fs w) m = EmptyString ->
  before ++ after <> [] ->
  (exists warnings,
     generate_instructions base_dir mods_dir [] w
     = (Return (universal_doc base_dir (fs w) +:+ nl +:+ nl
                +:+ py_core_doc base_dir (fs w) +:+ nl),
        emit warnings w))
  /\ exists text warnings warnings',
       generate_instructions base_dir mods_dir (before ++ m :: after) w
       = (Return text, emit warnings w)
       /\ generate_instructions base_dir mods_dir (before ++ after) w
          = (Return text, emit warnings' w).
Proof.
  intros (Hu & Hc & Hm) Hempty Hne.
  apply Forall_app in Hm as [Hb Hma]. inversion Hma as [|? ? Hmr Ha]; subst.
  split.
  - destruct (generate_instructions_text base_dir mods_dir w [])
      as [w0 H0]; [by split_and!|].
    exists w0. rewrite H0, append_nil_r. done.
  - destruct (generate_instructions_text base_dir mods_dir w (before ++ m :: after))
      as [w1 H1]; [split_and!; try done; apply Forall_app; by split; [|constructor]|].
    destruct (generate_instructions_text base_dir mods_dir w (before ++ after))
      as [w2 H2]; [split_and!; try done; by apply Forall_app|].
    eexists _, w1, w2. split; [exact H1|]. rewrite H2. do 2 f_equal.
    destruct (before ++ after) as [|x l] eqn:Hba; [done|].
    destruct (before ++ m :: after) as [|y l'] eqn:Hbma;
      [by destruct before|].
    f_equal. rewrite <- Hba, <- Hbma.
    by rewrite !map_app, !concat_app, map_cons, concat_cons, Hempty.
Qed.

Lemma C5_witness :
  all_readable base_ex mods_ex (fs (example_world [])) (["bar"] ++ "gone" :: ["foo"])
  /\ module_doc mods_ex (fs (example_world [])) "gone" = EmptyString
  /\ ["bar"] ++ ["foo"] <> []
  /\ (exists warnings,
        generate_instructions base_ex mods_ex [] (example_world [])
        = (Return (universal_doc base_ex (fs (example_world [])) +:+ nl +:+ nl
                   +:+ py_core_doc base_ex (fs (example_world [])) +:+ nl),
           emit warnings (example_world [])))
  /\ exists text warnings warnings',
       generate_instructions base_ex mods_ex (["bar"] ++ "gone" :: ["foo"])
         (example_world [])
       = (Return text, emit warnings (example_world []))
       /\ generate_instructions base_ex mods_ex (["bar"] ++ ["foo"])
            (example_world [])
          = (Return text, emit warnings' (example_world [])).
Proof.
  split; [solve_readable|]. split; [reflexivity|]. split; [discriminate|].
  apply (C5_nothing_for_empty base_ex mods_ex (example_world [])
           ["bar"] ["foo"] "gone");
    [solve_readable | reflexivity | discriminate].
Defined.

(** C5 as stated fails: with an empty selection list the output is the base
    part, and when the universal document itself holds the header line,
    the header string does occur in the output.  The proviso on skipped
    modules is needed as well: a list that names only a module without
    content still gets the section header. *)
Lemma C5_counterexample :
  let w := World header_fs (Console [] []) in
  (exists text w',
     generate_instructions base_ex mods_ex [] w = (Return text, w')
     /\ text = header_title +:+ nl +:+ nl +:+ "P" +:+ nl
     /\ occurrences header_title text = 1%nat)
  /\ fst (generate_instructions base_ex mods_ex ["gone"] (example_world []))
     = Return ("U" +:+ nl +:+ nl +:+ "C" +:+ nl +:+ library_header).
Proof.
  split; [|by vm_compute].
  eexists _, _.
  split; [by vm_compute|]. split; by vm_compute.
Qed.

(** ** The text selector *)

Lemma lstrip_all_space (s : string) :
  all_space s = true -> PyStr.lstrip s = EmptyString.
Proof.
  induction s as [|c s IH]; [done|]. simpl.
  intros [Hc Hs]%andb_true_iff. rewrite Hc. auto.
Qed.

Lemma strip_all_space (s : string) :
  all_space s = true -> PyStr.strip s = EmptyString.
Proof. intros H. unfold PyStr.strip. by rewrite lstrip_all_space. Qed.

(** Tokens that are empty once stripped do not reach [int]. *)
Lemma selected_indices_blank (lim : nat) (tokens : list string) :
  selected_indices lim tokens
  = selected_indices lim
      (filter (fun tok => PyStr.strip tok <> EmptyString) tokens).
Proof.
  induction tokens as [|tok tokens IH]; [done|].
  rewrite filter_cons. simpl.
  destruct (PyStr.strip tok) eqn:Htok.
  - by rewrite decide_False by (intros H; by apply H).
  - rewrite decide_True by done. simpl. rewrite Htok.
    destruct (PyInt.int lim _); [|done]. by rewrite IH.
Qed.

(** A line of numbers on a non-empty catalog: one module per index in
    range, in the order typed. *)
Lemma fallback_select_indices (lim : nat) (root : node) (a : string)
    (more rest out : list string) (line : string) (indices : list Z) :
  PyStr.lower (PyStr.strip line) <> "all" ->
  PyStr.lower (PyStr.strip line) <> "none" ->
  selected_indices lim (PyStr.split "," (PyStr.lower (PyStr.strip line)))
  = Some indices ->
  fallback_select lim (a :: more) (World root (Console (line :: rest) out))
  = (Return (omap (fun idx =>
                     if (1 <=? idx) && (idx <=? Z.of_nat (length (a :: more)))
                     then (a :: more) !! Z.to_nat (idx - 1) else None)
               indices),
     World root (Console rest (menu (a :: more) out ++ ["> "]))).
Proof.
  intros Hall Hnone Hidx.
  unfold fallback_select, on_console.
  cbn [tty stdin stdout fs fallback_select_lines].
  apply String.eqb_neq in Hall, Hnone. rewrite Hall, Hnone, Hidx.
  by rewrite selected_mods_total.
Qed.

(** C3: the text selector on a non-empty catalog.  The line "all" returns
    the whole list, "none" the empty list, "1,3" against three modules the
    first and the third, "5" against three modules the empty list; an
    index outside [1, count] is dropped and no subscript ever fails, so
    that a line of numerals returns the modules of its indices in range,
    in the order typed; the line "abc" prints the complaint and asks
    again, that is, the call continues as the same call on the rest of the
    input. *)
Theorem C3_text_selector_parsing (lim : nat) (root : node) (a b c : string)
    (more rest out : list string) :
  let asked avail := World root (Console rest (menu avail out ++ ["> "])) in
  let typed line := World root (Console (line :: rest) out) in
  fallback_select lim (a :: more) (typed "all")
  = (Return (a :: more), asked (a :: more))
  /\ fallback_select lim (a :: more) (typed "none")
     = (Return [], asked (a :: more))
  /\ fallback_select lim [a; b; c] (typed "1,3")
     = (Return [a; c], asked [a; b; c])
  /\ fallback_select lim [a; b; c] (typed "5") = (Return [], asked [a; b; c])
  /\ (forall available_mods indices,
        selected_mods available_mods indices
        = Some (omap (fun idx =>
                        if (1 <=? idx)
                           && (idx <=? Z.of_nat (length available_mods))
                        then available_mods !! Z.to_nat (idx - 1) else None)
                  indices))
  /\ (forall line indices,
        PyStr.lower (PyStr.strip line) <> "all" ->
        PyStr.lower (PyStr.strip line) <> "none" ->
        selected_indices lim (PyStr.split "," (PyStr.lower (PyStr.strip line)))
        = Some indices ->
        fallback_select lim (a :: more) (typed line)
        = (Return (omap (fun idx =>
                           if (1 <=? idx)
                              && (idx <=? Z.of_nat (length (a :: more)))
                           then (a :: more) !! Z.to_nat (idx - 1) else None)
                     indices),
           asked (a :: more)))
  /\ fallback_select lim (a :: more) (typed "abc")
     = fallback_select lim (a :: more)
         (World root
            (Console rest
               (print_line invalid_message (menu (a :: more) out ++ ["> "])))).
Proof.
  intros asked typed.
  split; [done|]. split; [done|]. split; [done|]. split; [done|].
  split; [apply selected_mods_total|].
  split; [intros line indices; apply fallback_select_indices|]. done.
Qed.

Lemma C3_witness :
  PyStr.lower (PyStr.strip " 2, 7 ,1") <> "all"
  /\ PyStr.lower (PyStr.strip " 2, 7 ,1") <> "none"
  /\ selected_indices 4300
       (PyStr.split "," (PyStr.lower (PyStr.strip " 2, 7 ,1")))
     = Some [2; 7; 1]
  /\ fallback_select 4300 ["a"; "b"; "c"]
       (World abc_fs (Console [" 2, 7 ,1"] []))
     = (Return ["b"; "a"],
        World abc_fs (Console [] (menu ["a"; "b"; "c"] [] ++ ["> "]))).
Proof.
  split; [discriminate|]. split; [discriminate|]. split; [reflexivity|].
  destruct (C3_text_selector_parsing 4300 abc_fs "a" "b" "c" ["b"; "c"] [] [])
    as (_ & _ & _ & _ & _ & Hline & _).
  rewrite (Hline " 2, 7 ,1" [2; 7; 1]); [reflexivity | discriminate
                                        | discriminate | reflexivity].
Defined.

(** C9: a line of white space only (the empty line included) returns the
    empty selection after the one prompt, without a complaint and without
    reading further; tokens that are empty once stripped are skipped by
    the parser, so "1,,2" selects the first and the second module. *)
Theorem C9_blank_line_and_blank_tokens (lim : nat) (root : node)
    (a b : string) (more rest out : list string) (line : string) :
  all_space line = true ->
  fallback_select lim (a :: more) (World root (Console (line :: rest) out))
  = (Return [], World root (Console rest (menu (a :: more) out ++ ["> "])))
  /\ (forall tokens,
        selected_indices lim tokens
        = selected_indices lim
            (filter (fun tok => PyStr.strip tok <> EmptyString) tokens))
  /\ fallback_select lim (a :: b :: more)
       (World root (Console ("1,,2" :: rest) out))
     = (Return [a; b],
        World root (Console rest (menu (a :: b :: more) out ++ ["> "]))).
Proof.
  intros Hline. split; [|split; [apply selected_indices_blank|]].
  - unfold fallback_select, on_console. simpl.
    by rewrite strip_all_space.
  - rewrite (fallback_select_indices lim root a (b :: more) rest out
               "1,,2" [1; 2]) by done.
    assert (H1 : (1 <=? Z.of_nat (length (a :: b :: more))) = true)
      by (apply Z.leb_le; simpl length; lia).
    assert (H2 : (2 <=? Z.of_nat (length (a :: b :: more))) = true)
      by (apply Z.leb_le; simpl length; lia).
    cbn [omap list_omap]. by rewrite H1, H2.
Qed.

Lemma C9_witness :
  all_space "   " = true
  /\ fallback_select 4300 ["bar"]
       (World example_fs (Console ["   "; "all"] []))
     = (Return [],
        World example_fs (Console ["all"] (menu ["bar"] [] ++ ["> "])))
  /\ (forall tokens,
        selected_indices 4300 tokens
        = selected_indices 4300
            (filter (fun tok => PyStr.strip tok <> EmptyString) tokens))
  /\ fallback_select 4300 ("bar" :: "foo" :: [])
       (World example_fs (Console ["1,,2"; "all"] []))
     = (Return ["bar"; "foo"],
        World example_fs
          (Console ["all"] (menu ("bar" :: "foo" :: []) [] ++ ["> "]))).
Proof.
  split; [reflexivity|].
  apply (C9_blank_line_and_blank_tokens 4300 example_fs "bar" "foo" []
           ["all"] [] "   ").
  reflexivity.
Defined.

(** ** The interactive selector *)

(** C10: when the checklist completes without raising, [interactive_select]
    returns a list whatever the answer: the ticked names, and the empty
    list when the prompt yields [None] (a cancelled prompt) or nothing
    ticked; the world is the one the prompt left. *)
Theorem C10_no_answer_is_empty_selection (lim : nat)
    (ask : string -> list choice -> M (option (list string)))
    (a : string) (more : list string) (w w' : world)
    (answer : option (list string)) :
  ask checkbox_message (map (fun m => Choice m false) (a :: more)) w
  = (Return answer, w') ->
  interactive_select lim (Some ask) (a :: more) w
  = (Return (match answer with Some l => l | None => [] end), w')
  /\ (answer = None ->
      interactive_select lim (Some ask) (a :: more) w = (Return [], w')
      /\ select_libraries lim (Some ask) (a :: more) w = (Return [], w')).
Proof.
  intros Hask.
  assert (Hsel : interactive_select lim (Some ask) (a :: more) w
                 = (Return (match answer with Some l => l | None => [] end), w')).
  { unfold interactive_select. unfold_monad. rewrite Hask.
    by destruct answer as [[|x l]|]. }
  split; [exact Hsel|].
  intros ->. split; [exact Hsel|]. exact Hsel.
Qed.

Lemma C10_witness :
  cancelled_ask checkbox_message (map (fun m => Choice m false) ("bar" :: ["foo"]))
    (example_world [])
  = (Return None, emit ["? "] (example_world []))
  /\ interactive_select 4300 (Some cancelled_ask) ("bar" :: ["foo"])
       (example_world [])
     = (Return [], emit ["? "] (example_world []))
  /\ select_libraries 4300 (Some cancelled_ask) ("bar" :: ["foo"])
       (example_world [])
     = (Return [], emit ["? "] (example_world [])).
Proof.
  split; [reflexivity|].
  destruct (C10_no_answer_is_empty_selection 4300 cancelled_ask "bar" ["foo"]
              (example_world []) (emit ["? "] (example_world [])) None eq_refl)
    as [_ Hnone].
  exact (Hnone eq_refl).
Defined.

(** C8, as amended: when the prompting operation raises an exception that
    derives from [Exception], [interactive_select] catches it, prints the
    line "Error with interactive selection: ..." and then runs the text
    selector, whose result it returns; the caught exception is not
    propagated.  An exception that derives from [BaseException] only
    ([KeyboardInterrupt], [SystemExit]) is not caught.  The same holds
    when the name [questionary] is unbound, which is a [NameError]. *)
Theorem C8_fallback_on_Exception (lim : nat)
    (ask : string -> list choice -> M (option (list string)))
    (a : string) (more : list string) (w w' : world) (e : exn) :
  ask checkbox_message (map (fun m => Choice m false) (a :: more)) w
  = (Raise e, w') ->
  interactive_select lim (Some ask) (a :: more) w
  = (if is_Exception e
     then fallback_select lim (a :: more)
            (emit [("Error with interactive selection: " +:+ exn_str e) +:+ nl] w')
     else (Raise e, w'))
  /\ interactive_select lim None (a :: more) w
     = fallback_select lim (a :: more)
         (emit [("Error with interactive selection: "
                 +:+ "name 'questionary' is not defined") +:+ nl] w).
Proof.
  intros Hask. split.
  - unfold interactive_select. unfold_monad. rewrite Hask.
    by destruct (is_Exception e).
  - done.
Qed.

Lemma C8_witness :
  failing_ask checkbox_message (map (fun m => Choice m false) ("bar" :: ["foo"]))
    (example_world ["2"])
  = (Raise boom, example_world ["2"])
  /\ interactive_select 4300 (Some failing_ask) ("bar" :: ["foo"])
       (example_world ["2"])
     = (if is_Exception boom
        then fallback_select 4300 ("bar" :: ["foo"])
               (emit [("Error with interactive selection: " +:+ exn_str boom) +:+ nl]
                  (example_world ["2"]))
        else (Raise boom, example_world ["2"]))
  /\ interactive_select 4300 None ("bar" :: ["foo"]) (example_world ["2"])
     = fallback_select 4300 ("bar" :: ["foo"])
         (emit [("Error with interactive selection: "
                 +:+ "name 'questionary' is not defined") +:+ nl]
            (example_world ["2"])).
Proof.
  split; [reflexivity|].
  apply (C8_fallback_on_Exception 4300 failing_ask "bar" ["foo"]
           (example_world ["2"]) (example_world ["2"]) boom).
  reflexivity.
Defined.

Example interactive_fallback_example :
  fst (interactive_select 4300 (Some failing_ask) ["bar"; "foo"]
         (example_world ["2"]))
  = Return ["foo"].
Proof. reflexivity. Qed.

(** C8 as stated fails twice.  The downgrade is not silent: the selector
    prints an error line before the text selector starts, so its effect
    differs from the text selector's.  And not every exception is caught:
    a [KeyboardInterrupt] raised by the prompt leaves [interactive_select]
    and [select_libraries]. *)
Lemma C8_counterexample :
  let w := World abc_fs (Console ["none"] []) in
  let catalog := ["a"; "b"; "c"] in
  interactive_select 4300 (Some failing_ask) catalog w
  <> fallback_select 4300 catalog w
  /\ stdout (tty (snd (interactive_select 4300 (Some failing_ask) catalog w)))
     = ("Error with interactive selection: boom" +:+ nl)
       :: stdout (tty (snd (fallback_select 4300 catalog w)))
  /\ interactive_select 4300 (Some interrupted_ask) catalog w
     = (Raise interrupt, w)
  /\ select_libraries 4300 (Some interrupted_ask) catalog w
     = (Raise interrupt, w).
Proof.
  split; [by vm_compute|]. split; [by vm_compute|]. split; by vm_compute.
Qed.

(** ** The Module Catalog *)

Lemma resolve_app (n : node) (p q : path) :
  resolve n (p ++ q)
  = match resolve n p with
    | Stat n' => resolve n' q
    | StatError e => StatError e
    end.
Proof.
  revert n. induction p as [|c p IH]; intros n; [done|].
  simpl. destruct n as [content|entries]; [done|].
  destruct (entries !! c); [apply IH | done].
Qed.

Lemma resolve_child (root : node) (d : path) (entries : gmap string node)
    (name : string) :
  resolve root d = Stat (Dir entries) ->
  resolve root (d ++ [name])
  = match entries !! name with
    | Some n => Stat n
    | None => StatError ENOENT
    end.
Proof.
  intros Hd. rewrite resolve_app, Hd. simpl. by destruct (entries !! name).
Qed.

Lemma stem_last (d : path) (name : string) : stem (d ++ [name]) = stem [name].
Proof. unfold stem. by rewrite last_last. Qed.

Lemma append_cons (c : ascii) (s1 s2 : string) :
  String c s1 +:+ s2 = String c (s1 +:+ s2).
Proof. done. Qed.

Lemma length_append (s1 s2 : string) :
  String.length (s1 +:+ s2) = (String.length s1 + String.length s2)%nat.
Proof.
  induction s1 as [|c s1 IH]; [done|].
  rewrite append_cons. simpl. by rewrite IH.
Qed.

Lemma substring_prefix (s1 s2 : string) :
  substring 0 (String.length s1) (s1 +:+ s2) = s1.
Proof.
  induction s1 as [|c s1 IH]; [by destruct s2|].
  rewrite append_cons. simpl. by rewrite IH.
Qed.

Lemma substring_suffix (s1 s2 : string) :
  substring (String.length s1) (String.length s2) (s1 +:+ s2) = s2.
Proof.
  induction s1 as [|c s1 IH]; [|by rewrite append_cons].
  change (EmptyString +:+ s2) with s2. simpl.
  induction s2 as [|c s2 IH]; [done|]. simpl. by rewrite IH.
Qed.

Lemma substring_all (s : string) : substring 0 (String.length s) s = s.
Proof.
  rewrite <- (append_nil_r s) at 2. by rewrite substring_prefix.
Qed.

Lemma substring_split (s : string) (n : nat) :
  (n <= String.length s)%nat ->
  s = substring 0 n s +:+ substring n (String.length s - n) s.
Proof.
  revert n. induction s as [|c s IH]; intros n Hn.
  - destruct n; [done | simpl in Hn; lia].
  - destruct n as [|n].
    + rewrite Nat.sub_0_r. by rewrite substring_all.
    + simpl. rewrite append_cons. f_equal. apply IH. simpl in Hn. lia.
Qed.

Lemma endswith_md (name : string) :
  PyStr.endswith name ".md" = true <-> exists base, name = base +:+ ".md".
Proof.
  unfold PyStr.endswith. split.
  - intros [Hlen Heq]%andb_true_iff.
    apply Nat.leb_le in Hlen. apply String.eqb_eq in Heq.
    exists (substring 0 (String.length name - String.length ".md") name).
    etrans;
      [apply (substring_split name (String.length name - String.length ".md"));
       lia|].
    f_equal. change (String.length ".md") with 3%nat in *.
    rewrite <- Heq. f_equal. lia.
  - intros [base ->]. rewrite length_append.
    apply andb_true_iff. split; [apply Nat.leb_le; lia|].
    apply String.eqb_eq.
    replace (String.length base + String.length ".md" - String.length ".md")%nat
      with (String.length base) by lia.
    apply substring_suffix.
Qed.

Lemma rfind_dot_md (base : string) :
  PyStr.rfind_dot (base +:+ ".md") = Some (String.length base).
Proof.
  induction base as [|c base IH]; [done|].
  rewrite append_cons. simpl. by rewrite IH.
Qed.

(** The stem of a name [base.md] is [base], but for the name [.md] itself,
    which [pathlib] takes to have no suffix. *)
Lemma stem_md (base : string) :
  stem [base +:+ ".md"]
  = match base with EmptyString => ".md" | _ => base end.
Proof.
  destruct base as [|c base]; [done|].
  unfold stem. cbn [List.last]. rewrite rfind_dot_md, length_append.
  replace ((0 <? String.length (String c base))%nat
           && (String.length (String c base)
               <? String.length (String c base) + String.length ".md" - 1)%nat)
    with true.
  - apply substring_prefix.
  - symmetry. apply andb_true_iff.
    split; apply Nat.ltb_lt; simpl; lia.
Qed.

Lemma for_each_append_stem (d : path) (w : world) (entries : gmap string node)
    (l : list (string * node)) :
  resolve (fs w) d = Stat (Dir entries) ->
  (forall e, e ∈ l -> entries !! fst e = Some (snd e)) ->
  forall acc,
    for_each (map (fun e => d ++ [fst e]) l) append_stem acc w
    = (Return (acc ++ map (fun e => stem [fst e])
                        (filter (fun e => Is_true (is_file_node (snd e))) l)),
       w).
Proof.
  intros Hd. induction l as [|[name n] l IH]; intros Hl acc.
  - simpl. by rewrite app_nil_r.
  - simpl. unfold_monad. unfold append_stem at 1, path_is_file, node_is_file.
    unfold_monad.
    assert (Hn : entries !! name = Some n) by (apply (Hl (name, n)); left).
    rewrite (resolve_child _ _ _ _ Hd), Hn.
    rewrite filter_cons. simpl.
    destruct n as [content|sub]; simpl.
    + rewrite IH by (intros e He; apply Hl; by right).
      by rewrite stem_last, <- app_assoc.
    + apply IH. intros e He. apply Hl. by right.
Qed.

Lemma get_available_mods_listing (mods_dir : path) (w : world)
    (entries : gmap string node) :
  resolve (fs w) mods_dir = Stat (Dir entries) ->
  get_available_mods mods_dir w
  = (Return (PyList.sorted (map (fun name => stem [name]) (md_files entries))),
     w).
Proof.
  intros Hd. unfold get_available_mods, path_exists, path_is_dir, glob_md,
    node_exists, node_is_dir.
  unfold_monad. repeat (rewrite Hd; simpl).
  rewrite (for_each_append_stem mods_dir w entries _ Hd).
  - simpl. unfold md_files. by rewrite map_map.
  - intros [name n] [_ He]%list_elem_of_filter.
    by apply elem_of_map_to_list in He.
Qed.

Lemma get_available_mods_exit (mods_dir : path) (w : world) :
  node_is_dir (fs w) mods_dir = false ->
  get_available_mods mods_dir w
  = (Raise (Exn (SystemExit 1) "1"), emit [not_found_message mods_dir] w).
Proof.
  unfold get_available_mods, path_exists, path_is_dir, node_exists,
    node_is_dir.
  unfold_monad.
  destruct (resolve (fs w) mods_dir) as [[content|entries]|e] eqn:E;
    intros H; try done; simpl; rewrite ?E; reflexivity.
Qed.

Lemma main_exit_without_mods_dir (lim : nat)
    (questionary : option (string -> list choice -> M (option (list string))))
    (script_dir : path) (w : world) :
  node_is_dir (fs w) (script_dir ++ ["src"; "mods"]) = false ->
  exists printed,
    main lim questionary script_dir w
    = (Raise (Exn (SystemExit 1) "1"), emit printed w).
Proof.
  intros Hd. unfold main, print_header. unfold_monad.
  rewrite !print_emit, !emit_emit.
  rewrite get_available_mods_exit by done.
  rewrite emit_emit. by eexists.
Qed.

Lemma md_files_elem (entries : gmap string node) (name : string) :
  name ∈ md_files entries
  <-> exists base content,
        name = base +:+ ".md" /\ entries !! name = Some (File content).
Proof.
  unfold md_files. rewrite list_elem_of_fmap. split.
  - intros ([name' n] & -> & [Hfile [Hmd He]%list_elem_of_filter]%list_elem_of_filter).
    simpl in *. apply elem_of_map_to_list in He.
    apply Is_true_true, endswith_md in Hmd as [base Hbase].
    destruct n as [content|sub]; [|done]. by exists base, content.
  - intros (base & content & Hname & He).
    exists (name, File content). split; [done|].
    apply list_elem_of_filter. split; [done|].
    apply list_elem_of_filter. split.
    + apply Is_true_true, endswith_md. by exists base.
    + by apply elem_of_map_to_list.
Qed.

(** C7: the Module Catalog.  On a path that is a directory it returns,
    without any effect, the list of the stems of the regular files
    directly inside whose name ends in [.md], sorted in lexicographic
    order; an empty directory gives the empty list.  The stem of
    [base.md] is [base] (the file named [.md] alone keeps its name).  On a
    path that is missing or no directory it prints the error and raises
    [SystemExit(1)], which nothing in [main] catches: the process ends
    with status 1 and the filesystem untouched. *)
Theorem C7_module_catalog (mods_dir : path) (w : world) :
  match resolve (fs w) mods_dir with
  | Stat (Dir entries) =>
      exists catalog,
        get_available_mods mods_dir w = (Return catalog, w)
        /\ StronglySorted String.le catalog
        /\ catalog ≡ₚ map (fun name => stem [name]) (md_files entries)
        /\ (forall m, m ∈ catalog <->
              exists base content,
                entries !! (base +:+ ".md") = Some (File content)
                /\ m = match base with EmptyString => ".md" | _ => base end)
        /\ (entries = ∅ -> catalog = [])
  | _ =>
      get_available_mods mods_dir w
      = (Raise (Exn (SystemExit 1) "1"), emit [not_found_message mods_dir] w)
      /\ exit_status (Raise (Exn (SystemExit 1) "1")) = 1
      /\ forall lim questionary script_dir,
           mods_dir = script_dir ++ ["src"; "mods"] ->
           exit_status (fst (main lim questionary script_dir w)) = 1
           /\ fs (snd (main lim questionary script_dir w)) = fs w
  end.
Proof.
  assert (Hexit : node_is_dir (fs w) mods_dir = false ->
    get_available_mods mods_dir w
    = (Raise (Exn (SystemExit 1) "1"), emit [not_found_message mods_dir] w)
    /\ exit_status (Raise (Exn (SystemExit 1) "1")) = 1
    /\ forall lim questionary script_dir,
         mods_dir = script_dir ++ ["src"; "mods"] ->
         exit_status (fst (main lim questionary script_dir w)) = 1
         /\ fs (snd (main lim questionary script_dir w)) = fs w).
  { intros Hd. split; [by apply get_available_mods_exit|]. split; [done|].
    intros lim questionary script_dir ->.
    destruct (main_exit_without_mods_dir lim questionary script_dir w Hd)
      as [printed ->]. done. }
  destruct (resolve (fs w) mods_dir) as [[content|entries]|e] eqn:Hd;
    try (apply Hexit; unfold node_is_dir; by rewrite Hd).
  eexists. split; [by apply get_available_mods_listing|].
  split; [apply StronglySorted_merge_sort; apply _|].
  split; [apply merge_sort_Permutation|]. split.
  - intros m. unfold PyList.sorted. rewrite merge_sort_Permutation.
    rewrite list_elem_of_fmap. split.
    + intros (name & -> & (base & content & -> & He)%md_files_elem).
      exists base, content. split; [done|]. apply stem_md.
    + intros (base & content & He & ->).
      exists (base +:+ ".md"). split; [symmetry; apply stem_md|].
      apply md_files_elem. by exists base, content.
  - intros ->. unfold md_files. by rewrite map_to_list_empty.
Qed.

Lemma C7_witness :
  get_available_mods mods_ex (World header_fs (Console [] []))
  = (Return [], World header_fs (Console [] []))
  /\ exit_status (fst (main 4300 None ["nowhere"] (example_world []))) = 1
  /\ fs (snd (main 4300 None ["nowhere"] (example_world [])))
     = fs (example_world []).
Proof.
  split.
  - pose proof (C7_module_catalog mods_ex (World header_fs (Console [] [])))
      as H.
    change (resolve (fs (World header_fs (Console [] []))) mods_ex)
      with (Stat (Dir ∅)) in H.
    destruct H as (catalog & Hget & _ & _ & _ & Hempty).
    rewrite Hget. by rewrite (Hempty eq_refl).
  - pose proof (C7_module_catalog (["nowhere"] ++ ["src"; "mods"])
                  (example_world [])) as H.
    change (resolve (fs (example_world [])) (["nowhere"] ++ ["src"; "mods"]))
      with (StatError ENOENT) in H.
    destruct H as (_ & _ & Hmain).
    exact (Hmain 4300%nat None ["nowhere"] eq_refl).
Defined.

Example catalog_and_exit_example :
  get_available_mods mods_ex (example_world [])
  = (Return ["bar"; "foo"], example_world [])
  /\ exit_status (fst (main 4300 None ["nowhere"] (example_world []))) = 1.
Proof. split; by vm_compute. Qed.

(** ** The Writer *)

(** Writing a file into an existing directory, over nothing or over a
    file: the directory gets the one entry, and the write succeeds. *)
Lemma write_node_child (d : path) (name content : string) :
  forall (n : node) (entries : gmap string node),
    resolve n d = Stat (Dir entries) ->
    not_dir (entries !! name) ->
    exists n',
      write_node n (d ++ [name]) content = inr n'
      /\ resolve n' d = Stat (Dir (<[name := File content]> entries)).
Proof.
  induction d as [|c d IH]; intros n entries Hd Hname.
  - simpl in Hd. injection Hd as ->. simpl.
    destruct (entries !! name) as [[old|sub]|]; [| done |]; by eexists.
  - simpl in Hd. destruct n as [old|top]; [done|].
    destruct (top !! c) as [n1|] eqn:Hc; [|done].
    destruct (IH n1 entries Hd Hname) as (n1' & Hw & Hr).
    exists (Dir (<[c := n1']> top)).
    rewrite <- app_comm_cons. simpl. rewrite Hc, Hw. split; [done|].
    by rewrite lookup_insert_eq.
Qed.

Lemma output_backup_names : output_name <> backup_name.
Proof. done. Qed.

(** One run of the Writer on a directory whose output and backup entries
    are no directories. *)
Lemma save_instructions_directory (content : string) (output_path : path)
    (w : world) (entries : gmap string node) :
  resolve (fs w) output_path = Stat (Dir entries) ->
  not_dir (entries !! output_name) ->
  not_dir (entries !! backup_name) ->
  exists w',
    save_instructions content output_path w = (Return tt, w')
    /\ resolve (fs w') output_path
       = Stat (Dir (<[output_name := File content]> (backed_up entries)))
    /\ stdin (tty w') = stdin (tty w).
Proof.
  intros Hd Hout Hbak.
  unfold save_instructions, path_exists, node_exists. unfold_monad.
  rewrite (resolve_child _ _ _ output_name Hd). unfold backed_up.
  destruct (entries !! output_name) as [[previous|sub]|] eqn:Ho; [| done |].
  - unfold copy2, path_is_dir, node_is_dir, read_text, write_text.
    unfold_monad.
    rewrite (resolve_child _ _ _ backup_name Hd).
    rewrite (resolve_child _ _ _ output_name Hd), Ho.
    assert (Hnotdir : match entries !! backup_name with
                      | Some n => match n with Dir _ => true | _ => false end
                      | None => false
                      end = false)
      by (by destruct (entries !! backup_name) as [[?|?]|]).
    destruct (entries !! backup_name) as [nb|] eqn:Hb;
      [destruct nb as [oldb|subb]; [|done]|].
    all: destruct (write_node_child output_path backup_name previous
                     (fs w) entries Hd) as (n1 & Hw1 & Hr1);
      [by rewrite Hb|].
    all: rewrite Hw1; simpl.
    all: destruct (write_node_child output_path output_name content
                     n1 _ Hr1) as (n2 & Hw2 & Hr2);
      [by rewrite lookup_insert_ne, Ho by (symmetry; apply output_backup_names)|].
    all: rewrite Hw2; simpl.
    all: by eexists.
  - unfold write_text. unfold_monad.
    destruct (write_node_child output_path output_name content
                (fs w) entries Hd) as (n1 & Hw1 & Hr1); [by rewrite Ho|].
    rewrite Hw1. simpl. by eexists.
Qed.

(** C6: the Writer round trip, in a directory that holds no output file
    yet and whose backup name is not taken by a directory.  The first save
    only adds the output file: no backup is made.  The second save copies
    the first output to the backup name and replaces the output.  A third
    save overwrites that backup with the second output: the directory
    never holds more than the one backup. *)
Theorem C6_writer_round_trip (first second third : string)
    (output_path : path) (w : world) (entries : gmap string node) :
  resolve (fs w) output_path = Stat (Dir entries) ->
  entries !! output_name = None ->
  not_dir (entries !! backup_name) ->
  exists w1 w2 w3,
    save_instructions first output_path w = (Return tt, w1)
    /\ resolve (fs w1) output_path
       = Stat (Dir (<[output_name := File first]> entries))
    /\ resolve (fs w1) (output_path ++ [backup_name])
       = resolve (fs w) (output_path ++ [backup_name])
    /\ save_instructions second output_path w1 = (Return tt, w2)
    /\ resolve (fs w2) output_path
       = Stat (Dir (<[output_name := File second]>
                      (<[backup_name := File first]> entries)))
    /\ resolve (fs w2) (output_path ++ [output_name]) = Stat (File second)
    /\ resolve (fs w2) (output_path ++ [backup_name]) = Stat (File first)
    /\ save_instructions third output_path w2 = (Return tt, w3)
    /\ resolve (fs w3) output_path
       = Stat (Dir (<[output_name := File third]>
                      (<[backup_name := File second]> entries))).
Proof.
  intros Hd Hout Hbak.
  pose proof output_backup_names as Hnames.
  destruct (save_instructions_directory first output_path w entries)
    as (w1 & Hs1 & Hr1 & _); [done | by rewrite Hout | done |].
  unfold backed_up in Hr1. rewrite Hout in Hr1.
  destruct (save_instructions_directory second output_path w1 _ Hr1)
    as (w2 & Hs2 & Hr2 & _);
    [by rewrite lookup_insert_eq | by rewrite lookup_insert_ne |].
  assert (E2 : <[output_name := File second]>
                 (backed_up (<[output_name := File first]> entries))
               = <[output_name := File second]>
                   (<[backup_name := File first]> entries)).
  { unfold backed_up. rewrite lookup_insert_eq. apply map_eq. intros k.
    rewrite !lookup_insert. repeat case_decide; congruence. }
  rewrite E2 in Hr2.
  destruct (save_instructions_directory third output_path w2 _ Hr2)
    as (w3 & Hs3 & Hr3 & _);
    [by rewrite lookup_insert_eq
    | by rewrite lookup_insert_ne, lookup_insert_eq |].
  assert (E3 : <[output_name := File third]>
                 (backed_up (<[output_name := File second]>
                               (<[backup_name := File first]> entries)))
               = <[output_name := File third]>
                   (<[backup_name := File second]> entries)).
  { unfold backed_up. rewrite lookup_insert_eq. apply map_eq. intros k.
    rewrite !lookup_insert. repeat case_decide; congruence. }
  rewrite E3 in Hr3.
  exists w1, w2, w3. split_and!; try done.
  - rewrite (resolve_child _ _ _ _ Hr1), (resolve_child _ _ _ _ Hd).
    by rewrite lookup_insert_ne.
  - by rewrite (resolve_child _ _ _ _ Hr2), lookup_insert_eq.
  - rewrite (resolve_child _ _ _ _ Hr2).
    by rewrite lookup_insert_ne, lookup_insert_eq.
Qed.

Lemma C6_witness :
  resolve (fs (example_world [])) ["app"] = Stat (Dir example_app)
  /\ example_app !! output_name = None
  /\ not_dir (example_app !! backup_name)
  /\ exists w1 w2 w3,
       save_instructions "one" ["app"] (example_world []) = (Return tt, w1)
       /\ resolve (fs w1) ["app"]
          = Stat (Dir (<[output_name := File "one"]> example_app))
       /\ resolve (fs w1) (["app"] ++ [backup_name])
          = resolve (fs (example_world [])) (["app"] ++ [backup_name])
       /\ save_instructions "two" ["app"] w1 = (Return tt, w2)
       /\ resolve (fs w2) ["app"]
          = Stat (Dir (<[output_name := File "two"]>
                         (<[backup_name := File "one"]> example_app)))
       /\ resolve (fs w2) (["app"] ++ [output_name]) = Stat (File "two")
       /\ resolve (fs w2) (["app"] ++ [backup_name]) = Stat (File "one")
       /\ save_instructions "three" ["app"] w2 = (Return tt, w3)
       /\ resolve (fs w3) ["app"]
          = Stat (Dir (<[output_name := File "three"]>
                         (<[backup_name := File "two"]> example_app))).
Proof.
  split; [reflexivity|]. split; [reflexivity|]. split; [exact I|].
  apply (C6_writer_round_trip "one" "two" "three" ["app"] (example_world [])
           example_app); [reflexivity | reflexivity | exact I].
Defined.

(** ** More on the Document Reader and the Assembler *)

Lemma read_markdown_file_exact (w : world) (p : path) :
  readable (fs w) p ->
  read_markdown_file p w
  = (Return (doc (fs w) p), emit (missing_warning (fs w) p) w).
Proof.
  unfold readable, read_markdown_file, doc, read_text, missing_warning.
  unfold_monad.
  destruct (resolve (fs w) p) as [[content|entries]|[]]; simpl; try done.
  intros _. by rewrite emit_nil.
Qed.

Lemma read_markdown_file_raises (w : world) (p : path) :
  ~ readable (fs w) p ->
  read_markdown_file p w = (Raise (read_error (fs w) p), w).
Proof.
  unfold readable, read_markdown_file, read_text, read_error. unfold_monad.
  destruct (resolve (fs w) p) as [[content|entries]|[]]; simpl; try done.
  all: intros H; by destruct H.
Qed.

Lemma missing_warning_emit (chunks : list string) (w : world) (p : path) :
  missing_warning (fs (emit chunks w)) p = missing_warning (fs w) p.
Proof. done. Qed.

Lemma for_each_add_library_exact (mods_dir : path) (selection : list string) :
  forall (w : world) (acc : string),
    Forall (fun m => readable (fs w) (mods_dir ++ [m +:+ ".md"])) selection ->
    for_each selection (add_library mods_dir) acc w
    = (Return (acc +:+ String.concat EmptyString
                 (map (fun m => block (module_doc mods_dir (fs w) m)) selection)),
       emit (flat_map (missing_warning (fs w))
               (map (fun m => mods_dir ++ [m +:+ ".md"]) selection)) w).
Proof.
  induction selection as [|m selection IH]; intros w acc Hall.
  - simpl. by rewrite emit_nil, append_nil_r.
  - inversion Hall as [|? ? Hm Hrest]; subst.
    cbn [for_each]. unfold_monad. unfold add_library at 1. unfold_monad.
    rewrite (read_markdown_file_exact w _ Hm).
    rewrite (IH (emit _ w)) by done.
    rewrite emit_emit, fs_emit. do 2 f_equal.
    rewrite map_cons, concat_cons.
    change (module_doc mods_dir (fs w) m)
      with (doc (fs w) (mods_dir ++ [m +:+ ".md"])).
    destruct (doc (fs w) (mods_dir ++ [m +:+ ".md"])); cbn [block];
      [done | by rewrite append_assoc].
Qed.

Lemma for_each_add_library_raises (mods_dir : path)
    (before after : list string) (m : string) :
  forall (w : world) (acc : string),
    Forall (fun m => readable (fs w) (mods_dir ++ [m +:+ ".md"])) before ->
    ~ readable (fs w) (mods_dir ++ [m +:+ ".md"]) ->
    for_each (before ++ m :: after) (add_library mods_dir) acc w
    = (Raise (read_error (fs w) (mods_dir ++ [m +:+ ".md"])),
       emit (flat_map (missing_warning (fs w))
               (map (fun m => mods_dir ++ [m +:+ ".md"]) before)) w).
Proof.
  induction before as [|m0 before IH]; intros w acc Hall Hbad.
  - cbn [app for_each]. unfold_monad. unfold add_library. unfold_monad.
    rewrite (read_markdown_file_raises w _ Hbad). simpl. by rewrite emit_nil.
  - inversion Hall as [|? ? Hm Hrest]; subst.
    rewrite <- app_comm_cons. cbn [for_each]. unfold_monad.
    unfold add_library at 1. unfold_monad.
    rewrite (read_markdown_file_exact w _ Hm).
    rewrite (IH (emit _ w)) by done.
    by rewrite emit_emit, fs_emit.
Qed.

Lemma generate_instructions_exact (base_dir mods_dir : path) (w : world)
    (selection : list string) :
  all_readable base_dir mods_dir (fs w) selection ->
  generate_instructions base_dir mods_dir selection w
  = (Return (assembled base_dir mods_dir (fs w) selection),
     emit (flat_map (missing_warning (fs w))
             (documents_read base_dir mods_dir selection)) w).
Proof.
  intros (Hu & Hc & Hm). unfold generate_instructions. unfold_monad.
  rewrite (read_markdown_file_exact w _ Hu).
  rewrite (read_markdown_file_exact (emit _ w) _ Hc).
  rewrite emit_emit, fs_emit.
  unfold assembled, base_part, universal_doc, py_core_doc, documents_read.
  destruct selection as [|m selection].
  - simpl. by rewrite ?append_assoc, ?append_nil_r, ?app_nil_r.
  - rewrite (for_each_add_library_exact mods_dir (m :: selection)) by done.
    rewrite emit_emit, fs_emit. f_equal.
    + by rewrite ?append_assoc.
    + f_equal. simpl. by rewrite ?app_assoc.
Qed.

(** X1: [generate_instructions] only reads and warns.  When every document
    it reads is a regular file or missing, it returns the assembled text
    and leaves the filesystem and the pending input as they were; what it
    prints is one "Warning: File not found" line for each missing
    document, in the order universal, core, then the selected modules. *)
Theorem generate_instructions_warnings (base_dir mods_dir : path) (w : world)
    (selection : list string) :
  all_readable base_dir mods_dir (fs w) selection ->
  generate_instructions base_dir mods_dir selection w
  = (Return (assembled base_dir mods_dir (fs w) selection),
     emit (flat_map (missing_warning (fs w))
             (documents_read base_dir mods_dir selection)) w).
Proof. apply generate_instructions_exact. Qed.

Lemma generate_instructions_warnings_witness :
  all_readable base_ex mods_ex (fs (example_world [])) ["bar"; "gone"]
  /\ generate_instructions base_ex mods_ex ["bar"; "gone"] (example_world [])
     = (Return (assembled base_ex mods_ex (fs (example_world [])) ["bar"; "gone"]),
        emit (flat_map (missing_warning (fs (example_world [])))
                (documents_read base_ex mods_ex ["bar"; "gone"]))
          (example_world [])).
Proof.
  split; [solve_readable|].
  apply (generate_instructions_warnings base_ex mods_ex (example_world [])
           ["bar"; "gone"]).
  solve_readable.
Defined.

(** X2: [generate_instructions] stops at the first document that is there
    but cannot be read as a file (a directory, or a path through a regular
    file): it raises the error of that read, having printed only the
    warnings of the documents before it; nothing is returned. *)
Theorem generate_instructions_raises (base_dir mods_dir : path) (w : world)
    (selection : list string) (before after : list path) (p : path) :
  documents_read base_dir mods_dir selection = before ++ p :: after ->
  Forall (readable (fs w)) before ->
  ~ readable (fs w) p ->
  generate_instructions base_dir mods_dir selection w
  = (Raise (read_error (fs w) p),
     emit (flat_map (missing_warning (fs w)) before) w).
Proof.
  intros Hdocs Hbefore Hbad. unfold documents_read in Hdocs.
  unfold generate_instructions. unfold_monad.
  destruct before as [|u before].
  { injection Hdocs as <- _.
    rewrite (read_markdown_file_raises w _ Hbad). simpl. by rewrite emit_nil. }
  injection Hdocs as <- Hdocs.
  inversion Hbefore as [|? ? Hu Hbefore']; subst.
  rewrite (read_markdown_file_exact w _ Hu).
  destruct before as [|c before].
  { injection Hdocs as <- _.
    rewrite (read_markdown_file_raises (emit _ w) _ Hbad).
    simpl. by rewrite app_nil_r. }
  injection Hdocs as <- Hdocs.
  inversion Hbefore' as [|? ? Hc Hmods]; subst.
  rewrite (read_markdown_file_exact (emit _ w) _ Hc).
  rewrite emit_emit, fs_emit.
  apply map_eq_app in Hdocs as (sel1 & sel2 & -> & <- & Hsel2).
  destruct sel2 as [|m sel2]; [done|]. injection Hsel2 as <- _.
  destruct (sel1 ++ m :: sel2) as [|x l] eqn:Hsel; [by destruct sel1|].
  rewrite <- Hsel.
  rewrite (for_each_add_library_raises mods_dir sel1 sel2 m).
  - rewrite emit_emit, fs_emit. f_equal. f_equal. simpl. by rewrite ?app_assoc.
  - rewrite ?fs_emit. apply Forall_forall. intros m0 Hm0.
    rewrite Forall_forall in Hmods. apply Hmods.
    apply list_elem_of_fmap. by exists m0.
  - by rewrite ?fs_emit.
Qed.

Lemma generate_instructions_raises_witness :
  documents_read base_ex mods_ex ["gone"; "sub"; "foo"]
  = [base_ex ++ ["universal.md"]; base_ex ++ ["py_core.md"];
     mods_ex ++ ["gone.md"]] ++ (mods_ex ++ ["sub.md"]) :: [mods_ex ++ ["foo.md"]]
  /\ Forall (readable (fs (example_world [])))
       [base_ex ++ ["universal.md"]; base_ex ++ ["py_core.md"];
        mods_ex ++ ["gone.md"]]
  /\ ~ readable (fs (example_world [])) (mods_ex ++ ["sub.md"])
  /\ generate_instructions base_ex mods_ex ["gone"; "sub"; "foo"] (example_world [])
     = (Raise (read_error (fs (example_world [])) (mods_ex ++ ["sub.md"])),
        emit (flat_map (missing_warning (fs (example_world [])))
                [base_ex ++ ["universal.md"]; base_ex ++ ["py_core.md"];
                 mods_ex ++ ["gone.md"]])
          (example_world [])).
Proof.
  assert (Hbad : ~ readable (fs (example_world [])) (mods_ex ++ ["sub.md"]))
    by (vm_compute; exact (fun H => H)).
  split; [reflexivity|]. split; [solve_readable|]. split; [exact Hbad|].
  apply (generate_instructions_raises base_ex mods_ex (example_world [])
           ["gone"; "sub"; "foo"] _ [mods_ex ++ ["foo.md"]]);
    [reflexivity | solve_readable | exact Hbad].
Defined.

(** ** More on the text selector *)




Lemma lstrip_app_space (l s : string) :
  all_space l = true -> PyStr.lstrip (l +:+ s) = PyStr.lstrip s.
Proof.
  induction l as [|c l IH]; [done|]. simpl.
  intros [Hc Hl]%andb_true_iff. rewrite ?append_cons; simpl. rewrite Hc. auto.
Qed.

Lemma rstrip_all_space (s : string) :
  all_space s = true -> PyStr.rstrip s = EmptyString.
Proof.
  induction s as [|c s IH]; [done|]. simpl.
  intros [Hc Hs]%andb_true_iff. by rewrite IH, Hc.
Qed.

Lemma rstrip_app_space (s r : string) :
  all_space r = true -> PyStr.rstrip (s +:+ r) = PyStr.rstrip s.
Proof.
  intros Hr. induction s as [|c s IH]; [by apply rstrip_all_space|].
  rewrite ?append_cons; simpl. by rewrite IH.
Qed.

Lemma lstrip_app_nonspace (s r : string) :
  PyStr.lstrip s <> EmptyString ->
  PyStr.lstrip (s +:+ r) = PyStr.lstrip s +:+ r.
Proof.
  induction s as [|c s IH]; [done|]. rewrite ?append_cons; simpl.
  destruct (PyStr.isspace c); [exact IH | done].
Qed.

Lemma lstrip_empty_all_space (s : string) :
  PyStr.lstrip s = EmptyString -> all_space s = true.
Proof.
  induction s as [|c s IH]; [done|]. simpl.
  destruct (PyStr.isspace c); [exact IH | done].
Qed.

Lemma all_space_app (s r : string) :
  all_space s = true -> all_space r = true -> all_space (s +:+ r) = true.
Proof.
  induction s as [|c s IH]; [done|]. rewrite ?append_cons; simpl.
  intros [Hc Hs]%andb_true_iff Hr. rewrite Hc. simpl. auto.
Qed.

(** White space around a line does not matter to [strip]. *)
Lemma strip_padding (l s r : string) :
  all_space l = true -> all_space r = true ->
  PyStr.strip (l +:+ s +:+ r) = PyStr.strip s.
Proof.
  intros Hl Hr. unfold PyStr.strip. rewrite lstrip_app_space by done.
  destruct (PyStr.lstrip s) eqn:Hs.
  - apply lstrip_empty_all_space in Hs.
    by rewrite lstrip_all_space, rstrip_all_space
      by (try apply all_space_app; done).
  - rewrite lstrip_app_nonspace by (by rewrite Hs).
    rewrite Hs. by apply rstrip_app_space.
Qed.

Lemma isspace_lower_char (c : ascii) :
  PyStr.isspace (PyStr.lower_char c) = PyStr.isspace c.
Proof. by destruct c as [[] [] [] [] [] [] [] []]. Qed.

(** A word whose lower-case form has no white space is left alone by
    [strip]. *)
Lemma strip_lower_fixed (word : string) :
  PyStr.strip (PyStr.lower word) = PyStr.lower word ->
  PyStr.strip word = word.
Proof.
  assert (Hl : forall s, PyStr.lstrip (PyStr.lower s) = PyStr.lower s ->
                         PyStr.lstrip s = s).
  { intros [|c s]; [done|]. simpl. rewrite isspace_lower_char.
    destruct (PyStr.isspace c) eqn:Hc; [|done].
    intros H. exfalso.
    assert (Hlen : forall t, (String.length (PyStr.lstrip t)
                              <= String.length t)%nat).
    { induction t as [|c' t IHt]; [done|]. simpl.
      destruct (PyStr.isspace c'); simpl; lia. }
    pose proof (Hlen (PyStr.lower s)) as Hle. rewrite H in Hle.
    simpl in Hle. lia. }
  assert (Hr : forall s, PyStr.rstrip (PyStr.lower s) = PyStr.lower s ->
                         PyStr.rstrip s = s).
  { induction s as [|c s IH]; [done|]. simpl.
    rewrite isspace_lower_char.
    destruct (PyStr.rstrip (PyStr.lower s)) eqn:Hrl.
    - destruct (PyStr.isspace c); [done|].
      intros [= Hs]. rewrite <- Hs in Hrl.
      destruct s; [done|]. simpl in Hs. done.
    - intros [= Hs]. rewrite IH by done. by destruct s. }
  unfold PyStr.strip. intros H.
  assert (Hlow : PyStr.lstrip (PyStr.lower word) = PyStr.lower word).
  { destruct (PyStr.lower word) as [|c s] eqn:Hw; [done|].
    simpl in *. destruct (PyStr.isspace c) eqn:Hc; [|done].
    exfalso.
    assert (Hlen : forall t, (String.length (PyStr.rstrip t)
                              <= String.length t)%nat).
    { induction t as [|c' t IHt]; [done|]. simpl.
      destruct (PyStr.rstrip t); [destruct (PyStr.isspace c')|];
        simpl in *; lia. }
    assert (Hlen' : forall t, (String.length (PyStr.lstrip t)
                               <= String.length t)%nat).
    { induction t as [|c' t IHt]; [done|]. simpl.
      destruct (PyStr.isspace c'); simpl; lia. }
    pose proof (Hlen (PyStr.lstrip s)) as H1.
    pose proof (Hlen' s) as H2. rewrite H in H1. simpl in H1. lia. }
  rewrite Hlow in H. rewrite (Hl _ Hlow). by apply Hr.
Qed.

(** X6: the two keywords are recognised in any mixture of upper and lower
    case and with any white space around them: such a line returns the
    whole catalog for [all] and the empty selection for [none], after one
    prompt. *)
Theorem fallback_select_keywords (lim : nat) (root : node) (a : string)
    (more rest out : list string) (l word r : string) :
  all_space l = true ->
  all_space r = true ->
  PyStr.lower word = "all" \/ PyStr.lower word = "none" ->
  fallback_select lim (a :: more)
    (World root (Console ((l +:+ word +:+ r) :: rest) out))
  = (Return (if String.eqb (PyStr.lower word) "all" then a :: more else []),
     World root (Console rest (menu (a :: more) out ++ ["> "]))).
Proof.
  intros Hl Hr Hword.
  assert (Hstrip : PyStr.strip (l +:+ word +:+ r) = word).
  { rewrite strip_padding by done. apply strip_lower_fixed.
    by destruct Hword as [-> | ->]. }
  unfold fallback_select, on_console.
  cbn [tty stdin stdout fs fallback_select_lines]. rewrite Hstrip.
  by destruct Hword as [-> | ->].
Qed.

Lemma fallback_select_keywords_witness :
  all_space "  " = true
  /\ all_space " " = true
  /\ (PyStr.lower "All" = "all" \/ PyStr.lower "All" = "none")
  /\ fallback_select 4300 ("a" :: ["b"; "c"])
       (World abc_fs (Console (("  " +:+ "All" +:+ " ") :: ["x"]) []))
     = (Return (if String.eqb (PyStr.lower "All") "all"
                then "a" :: ["b"; "c"] else []),
        World abc_fs (Console ["x"] (menu ("a" :: ["b"; "c"]) [] ++ ["> "]))).
Proof.
  split; [reflexivity|]. split; [reflexivity|]. split; [by left|].
  apply (fallback_select_keywords 4300 abc_fs "a" ["b"; "c"] ["x"] []
           "  " "All" " "); [reflexivity | reflexivity | by left].
Defined.

(** ** The numbers of the menu *)

Lemma digit_char_facts (c : ascii) (d : Z) :
  PyInt.digit_value c = Some d ->
  PyStr.isspace c = false /\ PyInt.int_space c = false
  /\ PyStr.lower_char c = c /\ Ascii.eqb c "," = false
  /\ Ascii.eqb c "_" = false.
Proof. destruct c as [[] [] [] [] [] [] [] []]; by intros [=]. Qed.

Lemma digit_value_pretty (d : N) :
  (d < 10)%N -> PyInt.digit_value (pretty_N_char d) = Some (Z.of_N d).
Proof.
  intros Hd.
  assert (d = 0 \/ d = 1 \/ d = 2 \/ d = 3 \/ d = 4 \/ d = 5 \/ d = 6
          \/ d = 7 \/ d = 8 \/ d = 9)%N as H by lia.
  by repeat destruct H as [-> | H]; [..|subst].
Qed.

Lemma all_digits_pretty_go (x : N) :
  forall s, all_digits s = true -> all_digits (pretty_N_go x s) = true.
Proof.
  induction (N.lt_wf_0 x) as [x _ IH]; intros s Hs.
  destruct (decide (x = 0%N)) as [-> | Hx]; [by rewrite pretty_N_go_0|].
  rewrite pretty_N_go_step by lia.
  apply IH; [apply N.div_lt; lia|].
  simpl. by rewrite digit_value_pretty by (apply N.mod_lt; lia).
Qed.

Lemma pretty_go_nonempty (x : N) (s : string) :
  (0 < x)%N -> pretty_N_go x s <> EmptyString.
Proof.
  revert s. induction (N.lt_wf_0 x) as [x _ IH]; intros s Hx.
  rewrite pretty_N_go_step by done.
  destruct (decide (x `div` 10 = 0)%N) as [-> | Hdiv].
  - by rewrite pretty_N_go_0.
  - apply IH; [apply N.div_lt; lia|].
    apply N.neq_0_lt_0. exact Hdiv.
Qed.

(** Scanning the decimal form of [x]: its value, and a number of digits
    [d] with [10^(d-1) <= x < 10^d]. *)
Lemma scan_digits_pretty_go (x : N) :
  (0 < x)%N ->
  exists d : nat,
    (0 < d)%nat /\ 10 ^ Z.of_nat (d - 1) <= Z.of_N x
    /\ forall s b acc n,
         PyInt.scan_digits (pretty_N_go x s) b acc n
         = PyInt.scan_digits s false (acc * 10 ^ Z.of_nat d + Z.of_N x)
             (n + d).
Proof.
  induction (N.lt_wf_0 x) as [x _ IH]; intros Hx.
  assert (Hmod : (x `mod` 10 < 10)%N) by (apply N.mod_lt; lia).
  assert (Hdm : Z.of_N x = 10 * Z.of_N (x `div` 10) + Z.of_N (x `mod` 10)).
  { rewrite (N.div_mod x 10) at 1 by lia. lia. }
  pose proof (N2Z.is_nonneg (x `mod` 10)) as Hnonneg.
  destruct (decide (x `div` 10 = 0)%N) as [Hdiv | Hdiv].
  - exists 1%nat. split; [lia|]. split; [simpl; lia|].
    intros s b acc n. rewrite pretty_N_go_step, Hdiv, pretty_N_go_0 by done.
    simpl PyInt.scan_digits. rewrite digit_value_pretty by done.
    rewrite Hdm, Hdiv. f_equal; [|lia].
    change (10 ^ Z.of_nat 1) with 10. lia.
  - destruct (IH (x `div` 10)%N) as (d & Hd & Hlow & Hscan);
      [apply N.div_lt; lia | lia |].
    exists (S d). split; [lia|]. split.
    + replace (S d - 1)%nat with (S (d - 1)) by lia.
      rewrite Nat2Z.inj_succ, Z.pow_succ_r by lia.
      generalize dependent (10 ^ Z.of_nat (d - 1)). intros p Hp. lia.
    + intros s b acc n. rewrite pretty_N_go_step, Hscan by done.
      simpl PyInt.scan_digits. rewrite digit_value_pretty by done.
      f_equal; [|lia].
      rewrite Nat2Z.inj_succ, Z.pow_succ_r by lia.
      generalize (10 ^ Z.of_nat d). intros p. lia.
Qed.

Lemma strip_all_digits (s : string) :
  all_digits s = true -> PyStr.strip s = s.
Proof.
  intros Hs. unfold PyStr.strip.
  assert (Hl : PyStr.lstrip s = s).
  { destruct s as [|c s]; [done|]. simpl in *.
    destruct (PyInt.digit_value c) eqn:Hc; [|done].
    by destruct (digit_char_facts c _ Hc) as (-> & _). }
  rewrite Hl. clear Hl.
  induction s as [|c s IH]; [done|]. simpl in *.
  destruct (PyInt.digit_value c) eqn:Hc; [|done].
  destruct (digit_char_facts c _ Hc) as (Hsp & _).
  rewrite IH by done. destruct s; [by rewrite Hsp | done].
Qed.

Lemma lower_all_digits (s : string) :
  all_digits s = true -> PyStr.lower s = s.
Proof.
  induction s as [|c s IH]; [done|]. simpl.
  destruct (PyInt.digit_value c) eqn:Hc; [|done].
  destruct (digit_char_facts c _ Hc) as (_ & _ & -> & _).
  intros Hs. by rewrite IH.
Qed.

Lemma split_all_digits (s : string) :
  all_digits s = true -> PyStr.split "," s = [s].
Proof.
  induction s as [|c s IH]; [done|]. simpl.
  destruct (PyInt.digit_value c) eqn:Hc; [|done].
  destruct (digit_char_facts c _ Hc) as (_ & _ & _ & -> & _).
  intros Hs. by rewrite IH.
Qed.

Lemma all_digits_no_keyword (s : string) :
  all_digits s = true -> s <> "all" /\ s <> "none".
Proof. split; intros ->; discriminate. Qed.

(** [int] on a numeral of at most 640 digits, whatever the digit limit. *)
Lemma int_all_digits (lim : nat) (s : string) (v : Z) (n : nat) :
  all_digits s = true -> s <> EmptyString ->
  PyInt.scan_digits s false 0 0 = Some (v, n) ->
  (n <= 640)%nat ->
  PyInt.int lim s = Some v.
Proof.
  intros Hs Hne Hscan Hn.
  destruct s as [|c t]; [done|].
  assert (Hc : exists d, PyInt.digit_value c = Some d).
  { simpl in Hs. destruct (PyInt.digit_value c); [by eexists | done]. }
  destruct Hc as [d Hc].
  assert (Hlimit : (640 <? n)%nat = false) by (apply Nat.ltb_ge; lia).
  destruct c as [[] [] [] [] [] [] [] []]; try discriminate Hc.
  all: unfold PyInt.int; simpl; simpl in Hscan.
  all: rewrite Hscan, Hlimit; simpl; f_equal; lia.
Qed.

Lemma pretty_nat_unfold (k : nat) :
  (0 < k)%nat -> pretty k = pretty_N_go (N.of_nat k) EmptyString.
Proof.
  intros Hk. unfold pretty, pretty_nat, pretty, pretty_N.
  by rewrite decide_False by lia.
Qed.

(** Reading back a printed positive number. *)
Lemma int_pretty_nat (lim : nat) (k : nat) :
  (0 < k)%nat -> Z.of_nat k < 10 ^ 640 ->
  PyInt.int lim (pretty k) = Some (Z.of_nat k).
Proof.
  intros Hk Hbound. rewrite pretty_nat_unfold by done.
  destruct (scan_digits_pretty_go (N.of_nat k)) as (d & Hd & Hlow & Hscan);
    [lia|].
  apply (int_all_digits lim _ _ d).
  - by apply all_digits_pretty_go.
  - apply pretty_go_nonempty. lia.
  - rewrite Hscan. simpl. do 2 f_equal. lia.
  - assert (Hlt : 10 ^ Z.of_nat (d - 1) < 10 ^ 640) by lia.
    apply Z.pow_lt_mono_r_iff in Hlt; lia.
Qed.

(** X7: the numbers of the menu select what they label.  In a catalog of
    fewer than 10^640 modules, the menu line of the module at position [i]
    starts with the number [i + 1], and typing that number returns exactly
    that module, whatever the digit limit of the interpreter. *)
Theorem menu_number_selects (lim : nat) (root : node)
    (available_mods rest out : list string) (i : nat) (m : string) :
  available_mods !! i = Some m ->
  Z.of_nat (length available_mods) < 10 ^ 640 ->
  numbered available_mods !! i = Some (pretty (S i) +:+ ". " +:+ m +:+ nl)
  /\ fallback_select lim available_mods
       (World root (Console (pretty (S i) :: rest) out))
     = (Return [m],
        World root (Console rest (menu available_mods out ++ ["> "]))).
Proof.
  intros Hm Hlen. split.
  { unfold numbered. by rewrite list_lookup_imap, Hm. }
  pose proof (lookup_lt_Some _ _ _ Hm) as Hi.
  destruct available_mods as [|a more]; [done|].
  assert (Hdigits : all_digits (pretty (S i)) = true).
  { rewrite pretty_nat_unfold by lia. by apply all_digits_pretty_go. }
  assert (Hne : pretty (S i) <> EmptyString).
  { rewrite pretty_nat_unfold by lia. apply pretty_go_nonempty. lia. }
  assert (Hline : PyStr.lower (PyStr.strip (pretty (S i))) = pretty (S i)).
  { by rewrite strip_all_digits, lower_all_digits. }
  destruct (all_digits_no_keyword _ Hdigits) as [Hall Hnone].
  rewrite (fallback_select_indices lim root a more rest out _ [Z.of_nat (S i)]).
  - cbn [omap list_omap].
    replace ((1 <=? Z.of_nat (S i))
             && (Z.of_nat (S i) <=? Z.of_nat (length (a :: more))))
      with true by (symmetry; apply andb_true_iff; split; apply Z.leb_le; lia).
    replace (Z.to_nat (Z.of_nat (S i) - 1)) with i by lia.
    by rewrite Hm.
  - by rewrite Hline.
  - by rewrite Hline.
  - rewrite Hline, split_all_digits by done.
    cbn [selected_indices]. rewrite strip_all_digits by done.
    destruct (pretty (S i)) eqn:Hp; [done|]. rewrite <- Hp.
    rewrite int_pretty_nat by lia. done.
Qed.

Lemma menu_number_selects_witness :
  ["a"; "b"; "c"] !! 1%nat = Some "b"
  /\ Z.of_nat (length ["a"; "b"; "c"]) < 10 ^ 640
  /\ numbered ["a"; "b"; "c"] !! 1%nat
     = Some (pretty 2%nat +:+ ". " +:+ "b" +:+ nl)
  /\ fallback_select 4300 ["a"; "b"; "c"]
       (World abc_fs (Console (pretty 2%nat :: ["x"]) []))
     = (Return ["b"],
        World abc_fs (Console ["x"] (menu ["a"; "b"; "c"] [] ++ ["> "]))).
Proof.
  split; [reflexivity|]. split; [by vm_compute|].
  apply (menu_number_selects 4300 abc_fs ["a"; "b"; "c"] ["x"] [] 1 "b");
    [reflexivity | by vm_compute].
Defined.

(** ** More on the Module Catalog *)

Lemma md_files_NoDup (entries : gmap string node) : NoDup (md_files entries).
Proof.
  unfold md_files.
  apply (sublist_NoDup _ (map fst (map_to_list entries)));
    [apply NoDup_fst_map_to_list|].
  apply fmap_sublist. etrans; apply sublist_filter.
Qed.

Lemma catalog_files (mods_dir : path) (w : world)
    (entries : gmap string node) :
  resolve (fs w) mods_dir = Stat (Dir entries) ->
  is_file_node <$> entries !! ".md" <> Some true ->
  exists catalog,
    get_available_mods mods_dir w = (Return catalog, w)
    /\ NoDup catalog
    /\ Forall (fun m =>
                 exists content,
                   entries !! (m +:+ ".md") = Some (File content)
                   /\ resolve (fs w) (mods_dir ++ [m +:+ ".md"])
                      = Stat (File content))
         catalog.
Proof.
  intros Hd Hdot.
  assert (Hbase : forall name, name ∈ md_files entries ->
            exists content, name = stem [name] +:+ ".md"
                            /\ entries !! name = Some (File content)).
  { intros name (base & content & -> & He)%md_files_elem.
    exists content. split; [|done]. rewrite stem_md.
    destruct base; [|done]. exfalso. apply Hdot.
    change (EmptyString +:+ ".md") with ".md" in He. by rewrite He. }
  eexists. split; [by apply get_available_mods_listing|]. split.
  - unfold PyList.sorted. rewrite merge_sort_Permutation.
    apply NoDup_fmap_2_strong; [|apply md_files_NoDup].
    intros x y (cx & Hx & _)%Hbase (cy & Hy & _)%Hbase Heq.
    rewrite Hx, Hy. by rewrite Heq.
  - apply Forall_forall. intros m Hm.
    unfold PyList.sorted in Hm. rewrite merge_sort_Permutation in Hm.
    apply list_elem_of_fmap in Hm as (name & -> & Hname).
    destruct (Hbase name Hname) as (content & Heq & He).
    exists content. rewrite <- Heq. split; [done|].
    by rewrite (resolve_child _ _ _ _ Hd), He.
Qed.

(** X8: the catalog and the files agree.  In a modules directory without a
    regular file named [.md], [get_available_mods] lists no module twice,
    and for every module [m] it lists, the path [m.md] that the Assembler
    will read is a regular file of that directory. *)
Theorem catalog_names_files (mods_dir : path) (w : world)
    (entries : gmap string node) :
  resolve (fs w) mods_dir = Stat (Dir entries) ->
  is_file_node <$> entries !! ".md" <> Some true ->
  exists catalog,
    get_available_mods mods_dir w = (Return catalog, w)
    /\ NoDup catalog
    /\ Forall (fun m =>
                 exists content,
                   entries !! (m +:+ ".md") = Some (File content)
                   /\ resolve (fs w) (mods_dir ++ [m +:+ ".md"])
                      = Stat (File content))
         catalog.
Proof. apply catalog_files. Qed.

Lemma catalog_names_files_witness :
  resolve (fs (example_world [])) mods_ex
  = Stat (Dir {[ "foo.md" := File "F"; "bar.md" := File "B";
                 "notes.txt" := File "N"; "sub.md" := Dir ∅ ]})
  /\ is_file_node <$>
       ({[ "foo.md" := File "F"; "bar.md" := File "B";
           "notes.txt" := File "N"; "sub.md" := Dir ∅ ]}
          : gmap string node) !! ".md" <> Some true
  /\ exists catalog,
       get_available_mods mods_ex (example_world [])
       = (Return catalog, example_world [])
       /\ NoDup catalog
       /\ Forall (fun m =>
                    exists content,
                      ({[ "foo.md" := File "F"; "bar.md" := File "B";
                          "notes.txt" := File "N"; "sub.md" := Dir ∅ ]}
                         : gmap string node) !! (m +:+ ".md")
                      = Some (File content)
                      /\ resolve (fs (example_world [])) (mods_ex ++ [m +:+ ".md"])
                         = Stat (File content))
            catalog.
Proof.
  split; [reflexivity|]. split; [by vm_compute|].
  apply (catalog_names_files mods_ex (example_world [])
           {[ "foo.md" := File "F"; "bar.md" := File "B";
              "notes.txt" := File "N"; "sub.md" := Dir ∅ ]});
    [reflexivity | by vm_compute].
Defined.

(** ** More on the Writer *)

(** Writing below a path that is no directory fails with the error of
    resolving the file's path. *)
Lemma write_node_no_directory (d : path) (name content : string) :
  forall n,
    match resolve n d with Stat (Dir _) => False | _ => True end ->
    exists e,
      resolve n (d ++ [name]) = StatError e
      /\ write_node n (d ++ [name]) content = inl e.
Proof.
  induction d as [|c d IH]; intros n Hd.
  - simpl in *. destruct n as [old|entries]; [|done]. by exists ENOTDIR.
  - rewrite <- app_comm_cons. simpl in *.
    destruct n as [old|entries]; [by exists ENOTDIR|].
    destruct (entries !! c) as [n1|] eqn:Hc.
    + destruct (IH n1 Hd) as (e & Hr & Hw). exists e. by rewrite Hw.
    + exists ENOENT. split; [done|]. by destruct d.
Qed.

(** X9: the Writer needs its directory.  When the output path is missing or
    is no directory, [save_instructions] raises the [FileNotFoundError] or
    [NotADirectoryError] of opening the output file, and nothing is
    written or printed. *)
Theorem save_instructions_no_directory (content : string)
    (output_path : path) (w : world) :
  node_is_dir (fs w) output_path = false ->
  exists e,
    resolve (fs w) (output_path ++ [output_name]) = StatError e
    /\ (e = ENOENT \/ e = ENOTDIR)
    /\ save_instructions content output_path w
       = (Raise (os_error e (output_path ++ [output_name])), w).
Proof.
  intros Hd.
  destruct (write_node_no_directory output_path output_name content (fs w))
    as (e & Hr & Hw).
  { unfold node_is_dir in Hd.
    by destruct (resolve (fs w) output_path) as [[?|?]|?]. }
  exists e. split; [done|]. split.
  - clear Hw. revert Hr. generalize (fs w). intros n.
    generalize (output_path ++ [output_name]). intros p. revert n.
    induction p as [|c p IH]; intros n; [done|]. simpl.
    destruct n as [old|entries]; [intros [= <-]; by right|].
    destruct (entries !! c); [apply IH | intros [= <-]; by left].
  - unfold save_instructions, path_exists, node_exists, write_text.
    unfold_monad. by rewrite Hr, Hw.
Qed.

Lemma save_instructions_no_directory_witness :
  node_is_dir (fs (example_world [])) ["app"; "src"; "uni"; "universal.md"]
  = false
  /\ exists e,
       resolve (fs (example_world []))
         (["app"; "src"; "uni"; "universal.md"] ++ [output_name])
       = StatError e
       /\ (e = ENOENT \/ e = ENOTDIR)
       /\ save_instructions "text" ["app"; "src"; "uni"; "universal.md"]
            (example_world [])
          = (Raise (os_error e (["app"; "src"; "uni"; "universal.md"]
                                ++ [output_name])),
             example_world []).
Proof.
  split; [reflexivity|].
  apply (save_instructions_no_directory "text"
           ["app"; "src"; "uni"; "universal.md"] (example_world [])).
  reflexivity.
Defined.

(** X10: a directory in the place of the output file stops the Writer
    before anything is written: the backup copy fails with
    [IsADirectoryError], which [save_instructions] does not catch. *)
Theorem save_instructions_output_is_directory (content : string)
    (output_path : path) (w : world) (entries sub : gmap string node) :
  resolve (fs w) output_path = Stat (Dir entries) ->
  entries !! output_name = Some (Dir sub) ->
  save_instructions content output_path w
  = (Raise (os_error EISDIR (output_path ++ [output_name])), w).
Proof.
  intros Hd Ho.
  unfold save_instructions, path_exists, node_exists, copy2, path_is_dir,
    read_text.
  unfold_monad.
  rewrite !(resolve_child _ _ _ output_name Hd), Ho.
  destruct (node_is_dir (fs w) (output_path ++ [backup_name]));
    by rewrite (resolve_child _ _ _ output_name Hd), Ho.
Qed.

Lemma save_instructions_output_is_directory_witness :
  resolve
    (fs (World (Dir {[ "app" := Dir (<[output_name := Dir ∅]> example_app) ]})
           (Console [] [])))
    ["app"]
  = Stat (Dir (<[output_name := Dir ∅]> example_app))
  /\ <[output_name := Dir ∅]> example_app !! output_name = Some (Dir ∅)
  /\ save_instructions "text" ["app"]
       (World (Dir {[ "app" := Dir (<[output_name := Dir ∅]> example_app) ]})
          (Console [] []))
     = (Raise (os_error EISDIR (["app"] ++ [output_name])),
        World (Dir {[ "app" := Dir (<[output_name := Dir ∅]> example_app) ]})
          (Console [] [])).
Proof.
  split; [reflexivity|]. split; [reflexivity|].
  apply (save_instructions_output_is_directory "text" ["app"]
           (World (Dir {[ "app" := Dir (<[output_name := Dir ∅]> example_app) ]})
              (Console [] []))
           (<[output_name := Dir ∅]> example_app) ∅);
    reflexivity.
Defined.

(** A write changes nothing at a path that is neither on the way to the
    file written nor below it. *)
Lemma write_node_frame (p : path) (content : string) :
  forall (n n' : node) (q : path),
    write_node n p content = inr n' ->
    ~ p `prefix_of` q -> ~ q `prefix_of` p ->
    resolve n' q = resolve n q.
Proof.
  induction p as [|c p IH]; intros n n' q Hw Hpq Hqp.
  - destruct Hpq. apply prefix_nil.
  - destruct q as [|c' q]; [destruct Hqp; apply prefix_nil|].
    simpl in Hw. destruct n as [old|entries]; [done|].
    destruct (entries !! c) as [n1|] eqn:Hc.
    + destruct (write_node n1 p content) as [e|n1'] eqn:Hw1; [done|].
      injection Hw as <-. simpl.
      destruct (decide (c = c')) as [<- | Hne].
      * rewrite lookup_insert_eq, Hc. apply (IH n1); [done | |].
        -- intros Hp. apply Hpq. by apply prefix_cons.
        -- intros Hq. apply Hqp. by apply prefix_cons.
      * by rewrite lookup_insert_ne.
    + destruct p as [|c2 p]; [|done]. injection Hw as <-. simpl.
      destruct (decide (c = c')) as [<- | Hne].
      * destruct Hpq. apply prefix_cons, prefix_nil.
      * by rewrite lookup_insert_ne.
Qed.

Lemma prefix_snoc_inv (q d : path) (x : string) :
  q `prefix_of` d ++ [x] -> q `prefix_of` d \/ q = d ++ [x].
Proof.
  intros [k Hk].
  destruct (decide (k = [])) as [-> | Hne].
  - right. by rewrite app_nil_r in Hk.
  - left. destruct (exists_last Hne) as (k' & y & ->).
    rewrite app_assoc in Hk. apply app_inj_tail in Hk as [-> _].
    by exists k'.
Qed.

Section Preservation.

(** A property of the world that each step of a computation keeps is kept
    by the whole computation, however it ends. *)
Variable I : world -> Prop.

Lemma preserved_bind {A B} (m : M A) (k : A -> M B) :
  (forall w, I w -> I (snd (m w))) ->
  (forall a w, I w -> I (snd (k a w))) ->
  forall w, I w -> I (snd ((m ≫= k) w)).
Proof.
  intros Hm Hk w Hw. unfold_monad. specialize (Hm w Hw).
  destruct (m w) as [[a|e] w1]; simpl in *; [by apply Hk | done].
Qed.

Lemma preserved_ret {A} (a : A) :
  forall w, I w -> I (snd ((mret a : M A) w)).
Proof. done. Qed.

End Preservation.

(** X11: the Writer touches two places only.  Whatever happens in
    [save_instructions], success or error, a path that is not the output
    directory or one of its ancestors, and neither the output file nor
    the backup file nor anything below them, resolves after the call as
    it did before; and standard input is not read. *)
Theorem save_instructions_frame (content : string) (output_path : path)
    (w : world) (q : path) :
  ~ q `prefix_of` output_path ->
  ~ (output_path ++ [output_name]) `prefix_of` q ->
  ~ (output_path ++ [backup_name]) `prefix_of` q ->
  resolve (fs (snd (save_instructions content output_path w))) q
  = resolve (fs w) q
  /\ stdin (tty (snd (save_instructions content output_path w)))
     = stdin (tty w).
Proof.
  intros Hq Hout Hbak.
  set (I := fun w' : world =>
              resolve (fs w') q = resolve (fs w) q
              /\ stdin (tty w') = stdin (tty w)).
  assert (Hwrite : forall p text,
            p = output_path ++ [output_name]
            \/ p = output_path ++ [backup_name]
            \/ p = (output_path ++ [backup_name]) ++ [output_name] ->
            forall w0, I w0 -> I (snd (write_text p text w0))).
  { intros p text Hp w0 [Hr0 Hi0]. unfold write_text.
    destruct (write_node (fs w0) p text) as [e|n'] eqn:Hw; [done|].
    split; [|done]. simpl. rewrite <- Hr0.
    apply (write_node_frame p text _ _ _ Hw).
    - destruct Hp as [-> | [-> | ->]]; [done | done |].
      intros [k Hk]. apply Hbak. exists ([output_name] ++ k).
      by rewrite Hk, <- !app_assoc.
    - intros Hqp. destruct Hp as [-> | [-> | ->]].
      + apply prefix_snoc_inv in Hqp as [? | ->]; [done|].
        by apply Hout.
      + apply prefix_snoc_inv in Hqp as [? | ->]; [done|].
        by apply Hbak.
      + apply prefix_snoc_inv in Hqp as [Hqp | ->].
        * apply prefix_snoc_inv in Hqp as [? | ->]; [done|]. by apply Hbak.
        * apply Hbak. by exists [output_name]. }
  assert (Hprint : forall text w0, I w0 -> I (snd (print text w0))) by done.
  assert (Hread : forall p w0, I w0 -> I (snd (read_text p w0))).
  { intros p w0 Hw0. unfold read_text.
    by destruct (resolve (fs w0) p) as [[?|?]|?]. }
  assert (Hsave : forall w0, I w0 ->
            I (snd (save_instructions content output_path w0))).
  { unfold save_instructions.
    apply preserved_bind; [done|]. intros found.
    apply preserved_bind.
    - destruct found; [|done].
      apply preserved_bind; [|intros; by apply Hprint].
      unfold copy2. apply preserved_bind; [done|]. intros is_dir.
      apply preserved_bind; [apply Hread|]. intros data.
      apply Hwrite. rewrite last_last. destruct is_dir; auto.
    - intros _. apply preserved_bind; [by apply Hwrite; left|].
      intros; by apply Hprint. }
  by apply Hsave.
Qed.

Lemma save_instructions_frame_witness :
  ~ base_ex ++ ["universal.md"] `prefix_of` ["app"]
  /\ ~ (["app"] ++ [output_name]) `prefix_of` base_ex ++ ["universal.md"]
  /\ ~ (["app"] ++ [backup_name]) `prefix_of` base_ex ++ ["universal.md"]
  /\ resolve (fs (snd (save_instructions "text" ["app"] (example_world []))))
       (base_ex ++ ["universal.md"])
     = resolve (fs (example_world [])) (base_ex ++ ["universal.md"])
  /\ stdin (tty (snd (save_instructions "text" ["app"] (example_world []))))
     = stdin (tty (example_world [])).
Proof.
  assert (H1 : ~ base_ex ++ ["universal.md"] `prefix_of` ["app"])
    by (intros [k Hk]; discriminate).
  assert (H2 : ~ (["app"] ++ [output_name])
                 `prefix_of` base_ex ++ ["universal.md"])
    by (intros [k Hk]; discriminate).
  assert (H3 : ~ (["app"] ++ [backup_name])
                 `prefix_of` base_ex ++ ["universal.md"])
    by (intros [k Hk]; discriminate).
  split; [exact H1|]. split; [exact H2|]. split; [exact H3|].
  exact (save_instructions_frame "text" ["app"] (example_world [])
           (base_ex ++ ["universal.md"]) H1 H2 H3).
Defined.

(** Writing below a node that a path leads to: the node is replaced by
    the result of the write in it. *)
Lemma write_node_at (d p : path) (content : string) :
  forall (n m m' : node),
    resolve n d = Stat m ->
    write_node m p content = inr m' ->
    exists n',
      write_node n (d ++ p) content = inr n' /\ resolve n' d = Stat m'.
Proof.
  induction d as [|c d IH]; intros n m m' Hd Hw.
  - simpl in Hd. injection Hd as ->. by exists m'.
  - simpl in Hd. destruct n as [old|top]; [done|].
    destruct (top !! c) as [n1|] eqn:Hc; [|done].
    destruct (IH n1 m m' Hd Hw) as (n1' & Hw1 & Hr1).
    exists (Dir (<[c := n1']> top)).
    rewrite <- app_comm_cons. simpl. rewrite Hc, Hw1. split; [done|].
    by rewrite lookup_insert_eq.
Qed.

(** X12: a directory in the place of the backup file does not stop the
    Writer.  [shutil.copy2] then copies the previous output into that
    directory, under the name of the output file, and the output is
    replaced as usual; the backup name itself stays a directory. *)
Theorem save_instructions_backup_directory (content previous : string)
    (output_path : path) (w : world) (entries sub : gmap string node) :
  resolve (fs w) output_path = Stat (Dir entries) ->
  entries !! output_name = Some (File previous) ->
  entries !! backup_name = Some (Dir sub) ->
  not_dir (sub !! output_name) ->
  exists w',
    save_instructions content output_path w = (Return tt, w')
    /\ resolve (fs w') output_path
       = Stat (Dir (<[output_name := File content]>
                      (<[backup_name :=
                           Dir (<[output_name := File previous]> sub)]>
                         entries))).
Proof.
  intros Hd Ho Hb Hsub.
  pose proof output_backup_names as Hnames.
  unfold save_instructions, path_exists, node_exists, copy2, path_is_dir,
    node_is_dir, read_text, write_text.
  unfold_monad.
  rewrite !(resolve_child _ _ _ output_name Hd), Ho.
  rewrite (resolve_child _ _ _ backup_name Hd), Hb.
  rewrite (resolve_child _ _ _ output_name Hd), Ho.
  rewrite last_last.
  assert (Hinner : write_node (Dir entries) [backup_name; output_name] previous
                   = inr (Dir (<[backup_name :=
                                   Dir (<[output_name := File previous]> sub)]>
                                 entries))).
  { simpl. rewrite Hb.
    by destruct (sub !! output_name) as [[old|inner]|]. }
  destruct (write_node_at output_path [backup_name; output_name] previous
              (fs w) _ _ Hd Hinner) as (n1 & Hw1 & Hr1).
  rewrite <- app_assoc. change ([backup_name] ++ [output_name])
    with [backup_name; output_name].
  rewrite Hw1. simpl.
  destruct (write_node_child output_path output_name content n1 _ Hr1)
    as (n2 & Hw2 & Hr2); [by rewrite lookup_insert_ne, Ho|].
  rewrite Hw2. simpl. by eexists.
Qed.

Lemma save_instructions_backup_directory_witness :
  resolve
    (fs (World (Dir {[ "app" := Dir {[ output_name := File "old";
                                        backup_name := Dir ∅ ]} ]})
           (Console [] [])))
    ["app"]
  = Stat (Dir {[ output_name := File "old"; backup_name := Dir ∅ ]})
  /\ ({[ output_name := File "old"; backup_name := Dir ∅ ]}
        : gmap string node) !! output_name = Some (File "old")
  /\ ({[ output_name := File "old"; backup_name := Dir ∅ ]}
        : gmap string node) !! backup_name = Some (Dir ∅)
  /\ not_dir ((∅ : gmap string node) !! output_name)
  /\ exists w',
       save_instructions "new" ["app"]
         (World (Dir {[ "app" := Dir {[ output_name := File "old";
                                         backup_name := Dir ∅ ]} ]})
            (Console [] []))
       = (Return tt, w')
       /\ resolve (fs w') ["app"]
          = Stat (Dir (<[output_name := File "new"]>
                         (<[backup_name :=
                              Dir (<[output_name := File "old"]> ∅)]>
                            {[ output_name := File "old";
                               backup_name := Dir ∅ ]}))).
Proof.
  split; [reflexivity|]. split; [reflexivity|]. split; [reflexivity|].
  split; [exact I|].
  apply (save_instructions_backup_directory "new" "old" ["app"]
           (World (Dir {[ "app" := Dir {[ output_name := File "old";
                                           backup_name := Dir ∅ ]} ]})
              (Console [] []))
           {[ output_name := File "old"; backup_name := Dir ∅ ]} ∅);
    [reflexivity | reflexivity | reflexivity | exact I].
Defined.

(** ** The whole run *)

Lemma print_header_emit (w : world) :
  print_header w = (Return tt, emit header_lines w).
Proof.
  unfold print_header. unfold_monad. rewrite !print_emit, !emit_emit. done.
Qed.

Lemma get_available_mods_catalog (mods_dir : path) (w : world)
    (entries : gmap string node) :
  resolve (fs w) mods_dir = Stat (Dir entries) ->
  get_available_mods mods_dir w = (Return (catalog_of entries), w).
Proof. apply get_available_mods_listing. Qed.

(** A run of [main] in which the selector returns [selection] and leaves
    the filesystem alone. *)
Lemma main_run (lim : nat)
    (questionary : option (string -> list choice -> M (option (list string))))
    (script_dir : path) (w w1 : world) (top entries : gmap string node)
    (selection : list string) :
  resolve (fs w) script_dir = Stat (Dir top) ->
  not_dir (top !! output_name) ->
  not_dir (top !! backup_name) ->
  resolve (fs w) (script_dir ++ ["src"; "mods"]) = Stat (Dir entries) ->
  select_libraries lim questionary (catalog_of entries) (emit header_lines w)
  = (Return selection, w1) ->
  fs w1 = fs w ->
  all_readable (script_dir ++ ["src"; "uni"]) (script_dir ++ ["src"; "mods"])
    (fs w) selection ->
  exists w',
    main lim questionary script_dir w = (Return tt, w')
    /\ resolve (fs w') script_dir
       = Stat (Dir (<[output_name :=
                        File (assembled (script_dir ++ ["src"; "uni"])
                                (script_dir ++ ["src"; "mods"]) (fs w)
                                selection)]>
                      (backed_up top)))
    /\ stdin (tty w') = stdin (tty w1).
Proof.
  intros Htop Hout Hbak Hmods Hsel Hfs Hread.
  unfold main. unfold_monad. rewrite print_header_emit.
  rewrite (get_available_mods_catalog _ (emit header_lines w) entries)
    by done.
  rewrite Hsel.
  set (summary := match selection with
                  | [] => nl +:+ "Generating instructions with base content only."
                  | _ => nl +:+ "Generating instructions with: "
                         +:+ PyStr.join ", " selection
                  end).
  assert (Hsummary :
    match selection with
    | [] => print (nl +:+ "Generating instructions with base content only.")
    | _ => print (nl +:+ "Generating instructions with: "
                  +:+ PyStr.join ", " selection)
    end w1 = (Return tt, emit [summary +:+ nl] w1)).
  { unfold summary. by destruct selection. }
  rewrite Hsummary.
  rewrite (generate_instructions_exact _ _ (emit [summary +:+ nl] w1))
    by (by rewrite fs_emit, Hfs).
  rewrite emit_emit, fs_emit, Hfs.
  destruct (save_instructions_directory
              (assembled (script_dir ++ ["src"; "uni"])
                 (script_dir ++ ["src"; "mods"]) (fs w) selection)
              script_dir
              (emit ([summary +:+ nl]
                     ++ flat_map (missing_warning (fs w))
                          (documents_read (script_dir ++ ["src"; "uni"])
                             (script_dir ++ ["src"; "mods"]) selection)) w1)
              top) as (w4 & Hsave & Hr4 & Hi4);
    [by rewrite fs_emit, Hfs | done | done |].
  rewrite Hsave. rewrite !print_emit. eexists. split; [done|].
  by rewrite !fs_emit.
Qed.

(** X13: [main] writes what the selector chose.  In an installation whose
    root is a directory without directories at the output and backup
    names and whose modules directory exists, if the selector returns a
    selection without changing the filesystem and the documents of that
    selection can be read, then [main] ends normally and the root
    directory holds the assembled text of exactly that selection in
    [copilot-instructions.md], the previous output (if any) in the
    backup, and is otherwise as before. *)
Theorem main_writes_selection (lim : nat)
    (questionary : option (string -> list choice -> M (option (list string))))
    (script_dir : path) (w w1 : world) (top entries : gmap string node)
    (selection : list string) :
  resolve (fs w) script_dir = Stat (Dir top) ->
  not_dir (top !! output_name) ->
  not_dir (top !! backup_name) ->
  resolve (fs w) (script_dir ++ ["src"; "mods"]) = Stat (Dir entries) ->
  select_libraries lim questionary (catalog_of entries) (emit header_lines w)
  = (Return selection, w1) ->
  fs w1 = fs w ->
  all_readable (script_dir ++ ["src"; "uni"]) (script_dir ++ ["src"; "mods"])
    (fs w) selection ->
  exists w',
    main lim questionary script_dir w = (Return tt, w')
    /\ exit_status (fst (main lim questionary script_dir w)) = 0
    /\ resolve (fs w') script_dir
       = Stat (Dir (<[output_name :=
                        File (assembled (script_dir ++ ["src"; "uni"])
                                (script_dir ++ ["src"; "mods"]) (fs w)
                                selection)]>
                      (backed_up top)))
    /\ stdin (tty w') = stdin (tty w1).
Proof.
  intros Htop Hout Hbak Hmods Hsel Hfs Hread.
  destruct (main_run lim questionary script_dir w w1 top entries selection)
    as (w' & Hmain & Hr & Hi); try done.
  exists w'. by rewrite Hmain.
Qed.

Lemma main_writes_selection_witness :
  resolve (fs (example_world ["2,1"; "left"])) ["app"] = Stat (Dir example_app)
  /\ not_dir (example_app !! output_name)
  /\ not_dir (example_app !! backup_name)
  /\ resolve (fs (example_world ["2,1"; "left"])) (["app"] ++ ["src"; "mods"])
     = Stat (Dir example_mods)
  /\ select_libraries 4300 None (catalog_of example_mods)
       (emit header_lines (example_world ["2,1"; "left"]))
     = (Return ["foo"; "bar"],
        snd (select_libraries 4300 None (catalog_of example_mods)
               (emit header_lines (example_world ["2,1"; "left"]))))
  /\ fs (snd (select_libraries 4300 None (catalog_of example_mods)
                (emit header_lines (example_world ["2,1"; "left"]))))
     = fs (example_world ["2,1"; "left"])
  /\ all_readable (["app"] ++ ["src"; "uni"]) (["app"] ++ ["src"; "mods"])
       (fs (example_world ["2,1"; "left"])) ["foo"; "bar"]
  /\ exists w',
       main 4300 None ["app"] (example_world ["2,1"; "left"]) = (Return tt, w')
       /\ exit_status (fst (main 4300 None ["app"]
                              (example_world ["2,1"; "left"]))) = 0
       /\ resolve (fs w') ["app"]
          = Stat (Dir (<[output_name :=
                           File (assembled (["app"] ++ ["src"; "uni"])
                                   (["app"] ++ ["src"; "mods"])
                                   (fs (example_world ["2,1"; "left"]))
                                   ["foo"; "bar"])]>
                         (backed_up example_app)))
       /\ stdin (tty w')
          = stdin (tty (snd (select_libraries 4300 None
                               (catalog_of example_mods)
                               (emit header_lines
                                  (example_world ["2,1"; "left"]))))).
Proof.
  assert (Hsel : select_libraries 4300 None (catalog_of example_mods)
                   (emit header_lines (example_world ["2,1"; "left"]))
                 = (Return ["foo"; "bar"],
                    snd (select_libraries 4300 None (catalog_of example_mods)
                           (emit header_lines
                              (example_world ["2,1"; "left"])))))
    by (by vm_compute).
  split; [reflexivity|]. split; [exact I|]. split; [exact I|].
  split; [reflexivity|]. split; [exact Hsel|]. split; [by vm_compute|].
  split; [solve_readable|].
  apply (main_writes_selection 4300 None ["app"]
           (example_world ["2,1"; "left"]) _ example_app example_mods
           ["foo"; "bar"]);
    [reflexivity | exact I | exact I | reflexivity | exact Hsel
    | by vm_compute | solve_readable].
Defined.

Lemma select_libraries_empty (lim : nat)
    (questionary : option (string -> list choice -> M (option (list string))))
    (w : world) :
  exists printed,
    select_libraries lim questionary [] w = (Return [], emit printed w).
Proof.
  destruct questionary as [ask|].
  - by eexists [_].
  - eexists [_; _; _; _].
    unfold select_libraries, fallback_select, on_console, print_line, emit.
    unfold_monad. simpl.
    destruct (stdin (tty w)); simpl; unfold print_line;
      by rewrite <- !app_assoc.
Qed.

(** X14: without module files there is nothing to ask.  When the modules
    directory holds no regular [.md] file, [main] prompts for nothing and
    reads nothing from standard input, with or without the interactive
    library, and writes the two base documents alone: universal content,
    blank line, core content, newline. *)
Theorem main_without_modules (lim : nat)
    (questionary : option (string -> list choice -> M (option (list string))))
    (script_dir : path) (w : world) (top entries : gmap string node) :
  resolve (fs w) script_dir = Stat (Dir top) ->
  not_dir (top !! output_name) ->
  not_dir (top !! backup_name) ->
  resolve (fs w) (script_dir ++ ["src"; "mods"]) = Stat (Dir entries) ->
  md_files entries = [] ->
  readable (fs w) ((script_dir ++ ["src"; "uni"]) ++ ["universal.md"]) ->
  readable (fs w) ((script_dir ++ ["src"; "uni"]) ++ ["py_core.md"]) ->
  exists w',
    main lim questionary script_dir w = (Return tt, w')
    /\ resolve (fs w') (script_dir ++ [output_name])
       = Stat (File (universal_doc (script_dir ++ ["src"; "uni"]) (fs w)
                     +:+ nl +:+ nl
                     +:+ py_core_doc (script_dir ++ ["src"; "uni"]) (fs w)
                     +:+ nl))
    /\ stdin (tty w') = stdin (tty w).
Proof.
  intros Htop Hout Hbak Hmods Hnone Hu Hc.
  assert (Hcat : catalog_of entries = []).
  { unfold catalog_of. by rewrite Hnone. }
  destruct (select_libraries_empty lim questionary (emit header_lines w))
    as [printed Hsel].
  destruct (main_run lim questionary script_dir w
              (emit printed (emit header_lines w)) top entries [])
    as (w' & Hmain & Hr & Hi); try done.
  { by rewrite Hcat. }
  exists w'. split; [done|]. split; [|done].
  rewrite (resolve_child _ _ _ _ Hr), lookup_insert_eq.
  unfold assembled, base_part. by rewrite append_nil_r.
Qed.

Lemma main_without_modules_witness :
  resolve (fs (World header_fs (Console ["all"] []))) ["app"]
  = Stat (Dir {[ "src" := Dir {[
       "uni" := Dir {[ "universal.md" := File "## Library-Specific Instructions";
                        "py_core.md" := File "P" ]};
       "mods" := Dir ∅ ]} ]})
  /\ not_dir (({[ "src" := Dir {[
       "uni" := Dir {[ "universal.md" := File "## Library-Specific Instructions";
                        "py_core.md" := File "P" ]};
       "mods" := Dir ∅ ]} ]} : gmap string node) !! output_name)
  /\ not_dir (({[ "src" := Dir {[
       "uni" := Dir {[ "universal.md" := File "## Library-Specific Instructions";
                        "py_core.md" := File "P" ]};
       "mods" := Dir ∅ ]} ]} : gmap string node) !! backup_name)
  /\ resolve (fs (World header_fs (Console ["all"] []))) (["app"] ++ ["src"; "mods"])
     = Stat (Dir ∅)
  /\ md_files ∅ = []
  /\ readable (fs (World header_fs (Console ["all"] [])))
       ((["app"] ++ ["src"; "uni"]) ++ ["universal.md"])
  /\ readable (fs (World header_fs (Console ["all"] [])))
       ((["app"] ++ ["src"; "uni"]) ++ ["py_core.md"])
  /\ exists w',
       main 4300 (Some cancelled_ask) ["app"]
         (World header_fs (Console ["all"] []))
       = (Return tt, w')
       /\ resolve (fs w') (["app"] ++ [output_name])
          = Stat (File (universal_doc (["app"] ++ ["src"; "uni"])
                          (fs (World header_fs (Console ["all"] [])))
                        +:+ nl +:+ nl
                        +:+ py_core_doc (["app"] ++ ["src"; "uni"])
                              (fs (World header_fs (Console ["all"] [])))
                        +:+ nl))
       /\ stdin (tty w') = stdin (tty (World header_fs (Console ["all"] []))).
Proof.
  split; [reflexivity|]. split; [exact I|]. split; [exact I|].
  split; [reflexivity|]. split; [reflexivity|].
  split; [solve_readable|]. split; [solve_readable|].
  apply (main_without_modules 4300 (Some cancelled_ask) ["app"]
           (World header_fs (Console ["all"] []))
           {[ "src" := Dir {[
                "uni" := Dir {[ "universal.md" := File "## Library-Specific Instructions";
                                 "py_core.md" := File "P" ]};
                "mods" := Dir ∅ ]} ]} ∅);
    [reflexivity | exact I | exact I | reflexivity | reflexivity
    | solve_readable | solve_readable].
Defined.

(** ** Whole runs with the text selector *)

(** Restricting the catalog to the members of itself changes nothing. *)
Lemma filter_member (f : string -> string) (catalog : list string) :
  filter (fun m => m ∈ catalog /\ f m <> EmptyString) catalog
  = filter (fun m => f m <> EmptyString) catalog.
Proof.
  assert (H : forall l, l ⊆ catalog ->
            filter (fun m => m ∈ catalog /\ f m <> EmptyString) l
            = filter (fun m => f m <> EmptyString) l).
  { induction l as [|m l IH]; intros Hl; [done|].
    assert (Hm : m ∈ catalog) by (apply Hl; left).
    assert (Hl' : l ⊆ catalog) by (intros x Hx; apply Hl; by right).
    rewrite !filter_cons, (IH Hl').
    destruct (decide (f m <> EmptyString)) as [Hne|Heq].
    - by rewrite decide_True.
    - rewrite decide_False; [done | tauto]. }
  by apply H.
Qed.

Lemma assembled_catalog (base_dir mods_dir : path) (root : node)
    (catalog : list string) :
  assembled base_dir mods_dir root catalog
  = assemble_spec (universal_doc base_dir root) (py_core_doc base_dir root)
      (module_doc mods_dir root) catalog catalog.
Proof.
  unfold assembled, assemble_spec, base_part.
  rewrite !append_assoc. do 4 f_equal.
  destruct catalog as [|m catalog]; [done|]. f_equal.
  by rewrite concat_blocks, filter_member.
Qed.

Lemma select_libraries_all (lim : nat) (a : string) (more : list string)
    (w : world) (line : string) (rest : list string) :
  stdin (tty w) = line :: rest ->
  PyStr.lower (PyStr.strip line) = "all" ->
  exists printed,
    select_libraries lim None (a :: more) w
    = (Return (a :: more),
       World (fs w) (Console rest (stdout (tty w) ++ printed))).
Proof.
  intros Hin Hall.
  unfold select_libraries, fallback_select, on_console.
  unfold_monad. simpl. rewrite Hin. cbn [fallback_select_lines].
  rewrite Hall. simpl. eexists. f_equal. f_equal. f_equal.
  unfold menu, print_line. rewrite <- !app_assoc. done.
Qed.

Lemma catalog_readable (mods_dir : path) (root : node)
    (entries : gmap string node) :
  resolve root mods_dir = Stat (Dir entries) ->
  is_file_node <$> entries !! ".md" <> Some true ->
  Forall (fun m => readable root (mods_dir ++ [m +:+ ".md"]))
    (catalog_of entries).
Proof.
  intros Hd Hdot.
  destruct (catalog_files mods_dir (World root (Console [] [])) entries Hd Hdot)
    as (catalog & Hget & _ & Hfiles).
  rewrite (get_available_mods_catalog mods_dir (World root (Console [] [])) entries Hd) in Hget.
  injection Hget as <-.
  eapply Forall_impl; [exact Hfiles|].
  intros m (content & _ & Hr). unfold readable. simpl in Hr. by rewrite Hr.
Qed.

(** X15: selecting everything gives the catalog-ordered document.  Without
    the interactive library, in an installation whose modules directory
    holds at least one module and no regular file named [.md] alone, when
    the first line typed is [all] (in any case, with any surrounding white
    space), [main] ends normally, reads that one line only, and the output
    file holds the text of the specification's assembler for the whole
    catalog selected: the base part, the section header and the non-empty
    module documents in catalog order. *)
Theorem main_all_modules (lim : nat) (script_dir : path) (w : world)
    (top entries : gmap string node) (line : string) (rest : list string) :
  resolve (fs w) script_dir = Stat (Dir top) ->
  not_dir (top !! output_name) ->
  not_dir (top !! backup_name) ->
  resolve (fs w) (script_dir ++ ["src"; "mods"]) = Stat (Dir entries) ->
  is_file_node <$> entries !! ".md" <> Some true ->
  catalog_of entries <> [] ->
  readable (fs w) ((script_dir ++ ["src"; "uni"]) ++ ["universal.md"]) ->
  readable (fs w) ((script_dir ++ ["src"; "uni"]) ++ ["py_core.md"]) ->
  stdin (tty w) = line :: rest ->
  PyStr.lower (PyStr.strip line) = "all" ->
  exists w',
    main lim None script_dir w = (Return tt, w')
    /\ resolve (fs w') (script_dir ++ [output_name])
       = Stat (File (assemble_spec
                       (universal_doc (script_dir ++ ["src"; "uni"]) (fs w))
                       (py_core_doc (script_dir ++ ["src"; "uni"]) (fs w))
                       (module_doc (script_dir ++ ["src"; "mods"]) (fs w))
                       (catalog_of entries) (catalog_of entries)))
    /\ stdin (tty w') = rest.
Proof.
  intros Htop Hout Hbak Hmods Hdot Hne Hu Hc Hin Hall.
  destruct (catalog_of entries) as [|a more] eqn:Hcat; [done|].
  destruct (select_libraries_all lim a more (emit header_lines w) line rest
              Hin Hall) as [printed Hsel].
  match type of Hsel with
  | _ = (_, ?w1) =>
      destruct (main_run lim None script_dir w w1 top entries (a :: more)
                  Htop Hout Hbak Hmods)
        as (w' & Hmain & Hr & Hi)
  end.
  - rewrite Hcat. exact Hsel.
  - done.
  - split; [done|]. split; [done|]. rewrite <- Hcat.
    by apply catalog_readable.
  - exists w'. split; [done|]. split; [|done].
    rewrite (resolve_child _ _ _ _ Hr), lookup_insert_eq.
    by rewrite assembled_catalog.
Qed.

Lemma main_all_modules_witness :
  resolve (fs (example_world [" ALL "; "left"])) ["app"]
  = Stat (Dir example_app)
  /\ not_dir (example_app !! output_name)
  /\ not_dir (example_app !! backup_name)
  /\ resolve (fs (example_world [" ALL "; "left"])) (["app"] ++ ["src"; "mods"])
     = Stat (Dir example_mods)
  /\ is_file_node <$> example_mods !! ".md" <> Some true
  /\ catalog_of example_mods <> []
  /\ readable (fs (example_world [" ALL "; "left"]))
       ((["app"] ++ ["src"; "uni"]) ++ ["universal.md"])
  /\ readable (fs (example_world [" ALL "; "left"]))
       ((["app"] ++ ["src"; "uni"]) ++ ["py_core.md"])
  /\ stdin (tty (example_world [" ALL "; "left"])) = " ALL " :: ["left"]
  /\ PyStr.lower (PyStr.strip " ALL ") = "all"
  /\ exists w',
       main 4300 None ["app"] (example_world [" ALL "; "left"]) = (Return tt, w')
       /\ resolve (fs w') (["app"] ++ [output_name])
          = Stat (File (assemble_spec
                          (universal_doc (["app"] ++ ["src"; "uni"])
                             (fs (example_world [" ALL "; "left"])))
                          (py_core_doc (["app"] ++ ["src"; "uni"])
                             (fs (example_world [" ALL "; "left"])))
                          (module_doc (["app"] ++ ["src"; "mods"])
                             (fs (example_world [" ALL "; "left"])))
                          (catalog_of example_mods) (catalog_of example_mods)))
       /\ stdin (tty w') = ["left"].
Proof.
  assert (H1 : is_file_node <$> example_mods !! ".md" <> Some true)
    by (by vm_compute).
  assert (H2 : catalog_of example_mods <> []) by (by vm_compute).
  split; [reflexivity|]. split; [exact I|]. split; [exact I|].
  split; [reflexivity|]. split; [exact H1|]. split; [exact H2|].
  split; [solve_readable|]. split; [solve_readable|].
  split; [reflexivity|]. split; [reflexivity|].
  apply (main_all_modules 4300 ["app"] (example_world [" ALL "; "left"])
           example_app example_mods " ALL " ["left"]);
    [reflexivity | exact I | exact I | reflexivity | exact H1 | exact H2
    | solve_readable | solve_readable | reflexivity | reflexivity].
Defined.

(** X16: [main] has no handler for the end of input.  Without the
    interactive library, when the modules directory holds at least one
    module and standard input is at its end (closed, or an empty file),
    the first prompt of the text selector raises [EOFError], which
    neither [fallback_select] nor [main] catches: the process exits with
    status 1 and the filesystem is as before, so no output file is
    written. *)
Theorem main_end_of_input (lim : nat) (script_dir : path) (w : world)
    (entries : gmap string node) :
  resolve (fs w) (script_dir ++ ["src"; "mods"]) = Stat (Dir entries) ->
  catalog_of entries <> [] ->
  stdin (tty w) = [] ->
  exists w',
    main lim None script_dir w
    = (Raise (Exn EOFError "EOF when reading a line"), w')
    /\ exit_status (fst (main lim None script_dir w)) = 1
    /\ fs w' = fs w.
Proof.
  intros Hmods Hne Hin.
  assert (Hmain : exists w',
            main lim None script_dir w
            = (Raise (Exn EOFError "EOF when reading a line"), w')
            /\ fs w' = fs w).
  { unfold main. unfold_monad. rewrite print_header_emit.
    rewrite (get_available_mods_catalog _ (emit header_lines w) entries)
      by done.
    destruct (catalog_of entries) as [|a more]; [done|].
    unfold select_libraries, HAS_QUESTIONARY, fallback_select, on_console.
    unfold_monad. rewrite !print_emit, !emit_emit.
    destruct w as [root [lines out]]. unfold emit. simpl in *. subst lines.
    simpl. by eexists. }
  destruct Hmain as (w' & Hmain & Hfs).
  exists w'. by rewrite Hmain.
Qed.

Lemma main_end_of_input_witness :
  resolve (fs (example_world [])) (["app"] ++ ["src"; "mods"])
  = Stat (Dir example_mods)
  /\ catalog_of example_mods <> []
  /\ stdin (tty (example_world [])) = []
  /\ exists w',
       main 4300 None ["app"] (example_world [])
       = (Raise (Exn EOFError "EOF when reading a line"), w')
       /\ exit_status (fst (main 4300 None ["app"] (example_world []))) = 1
       /\ fs w' = fs (example_world []).
Proof.
  assert (H1 : catalog_of example_mods <> []) by (by vm_compute).
  split; [reflexivity|]. split; [exact H1|]. split; [reflexivity|].
  exact (main_end_of_input 4300 ["app"] (example_world []) example_mods
           eq_refl H1 eq_refl).
Defined.

(** ** What a run can change *)

Lemma fallback_select_keeps_files (lim : nat) (available_mods : list string)
    (w : world) :
  fs (snd (fallback_select lim available_mods w)) = fs w.
Proof.
  unfold fallback_select, on_console.
  by destruct (fallback_select_lines lim available_mods _ _).
Qed.

Lemma select_libraries_keeps_files (lim : nat)
    (questionary : option (string -> list choice -> M (option (list string))))
    (available_mods : list string) (w : world) :
  keeps_files questionary ->
  fs (snd (select_libraries lim questionary available_mods w)) = fs w.
Proof.
  intros Hq. unfold select_libraries, HAS_QUESTIONARY.
  destruct questionary as [ask|].
  - unfold interactive_select.
    destruct available_mods as [|a more]; [done|].
    unfold_monad. simpl in Hq.
    specialize (Hq checkbox_message
                  (map (fun mod_ => Choice mod_ false) (a :: more)) w).
    destruct (ask _ _ w) as [[selected|e] w1]; simpl in *; [done|].
    destruct (is_Exception e); [|done].
    by rewrite fallback_select_keeps_files.
  - unfold_monad. rewrite !print_emit, fallback_select_keeps_files.
    by rewrite !fs_emit.
Qed.

Lemma read_markdown_file_keeps_files (p : path) (w : world) :
  fs (snd (read_markdown_file p w)) = fs w.
Proof.
  unfold read_markdown_file, read_text. unfold_monad.
  by destruct (resolve (fs w) p) as [[?|?]|[]].
Qed.

Lemma generate_instructions_keeps_files (base_dir mods_dir : path)
    (selection : list string) (w : world) :
  fs (snd (generate_instructions base_dir mods_dir selection w)) = fs w.
Proof.
  set (I := fun w' : world => fs w' = fs w).
  assert (Hread : forall p w0, I w0 -> I (snd (read_markdown_file p w0))).
  { intros p w0 Hw0. unfold I. by rewrite read_markdown_file_keeps_files. }
  assert (Hloop : forall l acc w0, I w0 ->
            I (snd (for_each l (add_library mods_dir) acc w0))).
  { induction l as [|m l IH]; intros acc w0 Hw0; [done|].
    cbn [for_each]. apply preserved_bind; [|by intros; apply IH|done].
    unfold add_library. apply preserved_bind; [apply Hread|done]. }
  assert (Hgen : forall w0, I w0 ->
            I (snd (generate_instructions base_dir mods_dir selection w0))).
  { unfold generate_instructions.
    apply preserved_bind; [apply Hread|]. intros u.
    apply preserved_bind; [apply Hread|]. intros c.
    destruct selection; [done|]. apply Hloop. }
  by apply Hgen.
Qed.

(** X18: [main] changes files through the Writer only.  If the
    interactive prompt, when there is one, leaves the filesystem alone,
    then every run of [main] is of one of two kinds.  Either it ends with
    an exception before the Writer is reached (no modules directory, a
    selection that fails or is interrupted, a document that cannot be
    read) and the filesystem is the one it started with.  Or the
    Assembler has returned a text, reading the filesystem as it was at
    the start, and the filesystem at the end is the one that a single
    call of [save_instructions] with that text leaves, whether that call
    succeeds or fails. *)
Theorem main_writes_only_through_writer (lim : nat)
    (questionary : option (string -> list choice -> M (option (list string))))
    (script_dir : path) (w : world) :
  keeps_files questionary ->
  (exists e,
     fst (main lim questionary script_dir w) = Raise e
     /\ fs (snd (main lim questionary script_dir w)) = fs w)
  \/ (exists selection w1 text w2,
        fs w1 = fs w
        /\ generate_instructions (script_dir ++ ["src"; "uni"])
             (script_dir ++ ["src"; "mods"]) selection w1
           = (Return text, w2)
        /\ fs w2 = fs w
        /\ fs (snd (main lim questionary script_dir w))
           = fs (snd (save_instructions text script_dir w2))).
Proof.
  intros Hq. unfold main. unfold_monad. rewrite print_header_emit.
  destruct (node_is_dir (fs w) (script_dir ++ ["src"; "mods"])) eqn:Hd.
  - unfold node_is_dir in Hd.
    destruct (resolve (fs w) (script_dir ++ ["src"; "mods"]))
      as [[?|entries]|?] eqn:Hmods; try done.
    rewrite (get_available_mods_catalog _ (emit header_lines w) entries)
      by done.
    pose proof (select_libraries_keeps_files lim questionary
                  (catalog_of entries) (emit header_lines w) Hq) as Hsel.
    destruct (select_libraries lim questionary _ _) as [[selection|e1] w1];
      simpl in Hsel; rewrite ?fs_emit in Hsel; [|left; by eexists].
    set (summary := match selection with
                    | [] => nl +:+ "Generating instructions with base content only."
                    | _ => nl +:+ "Generating instructions with: "
                           +:+ PyStr.join ", " selection
                    end).
    assert (Hsummary :
      match selection with
      | [] => print (nl +:+ "Generating instructions with base content only.")
      | _ => print (nl +:+ "Generating instructions with: "
                    +:+ PyStr.join ", " selection)
      end w1 = (Return tt, emit [summary +:+ nl] w1)).
    { unfold summary. by destruct selection. }
    rewrite Hsummary.
    pose proof (generate_instructions_keeps_files
                  (script_dir ++ ["src"; "uni"]) (script_dir ++ ["src"; "mods"])
                  selection (emit [summary +:+ nl] w1)) as Hgen.
    destruct (generate_instructions _ _ selection _) as [[text|e2] w2] eqn:Hg;
      simpl in Hgen; rewrite ?fs_emit in Hgen.
    + right. exists selection, (emit [summary +:+ nl] w1), text, w2.
      split; [by rewrite ?fs_emit|]. split; [exact Hg|].
      split; [congruence|].
      by destruct (save_instructions text script_dir w2) as [[[]|e3] w3].
    + left. exists e2. split; [done|]. simpl. congruence.
  - rewrite get_available_mods_exit by (by rewrite fs_emit).
    left. by eexists.
Qed.

Lemma main_writes_only_through_writer_witness :
  keeps_files (Some interrupted_ask)
  /\ ((exists e,
         fst (main 4300 (Some interrupted_ask) ["app"] (example_world ["all"]))
         = Raise e
         /\ fs (snd (main 4300 (Some interrupted_ask) ["app"]
                       (example_world ["all"])))
            = fs (example_world ["all"]))
      \/ (exists selection w1 text w2,
            fs w1 = fs (example_world ["all"])
            /\ generate_instructions (["app"] ++ ["src"; "uni"])
                 (["app"] ++ ["src"; "mods"]) selection w1
               = (Return text, w2)
            /\ fs w2 = fs (example_world ["all"])
            /\ fs (snd (main 4300 (Some interrupted_ask) ["app"]
                          (example_world ["all"])))
               = fs (snd (save_instructions text ["app"] w2)))).
Proof.
  assert (H1 : keeps_files (Some interrupted_ask)) by (by intros ? ? ?).
  split; [exact H1|].
  exact (main_writes_only_through_writer 4300 (Some interrupted_ask) ["app"]
           (example_world ["all"]) H1).
Defined.

(** ** Running the generator again *)

(** The Writer changes the output and backup entries of the root only:
    what lies below [src] resolves as before. *)
Lemma src_frame (root root' : node) (script_dir p : path)
    (top : gmap string node) (text : string) :
  resolve root script_dir = Stat (Dir top) ->
  resolve root' script_dir
  = Stat (Dir (<[output_name := File text]> (backed_up top))) ->
  resolve root' (script_dir ++ "src" :: p)
  = resolve root (script_dir ++ "src" :: p).
Proof.
  intros H1 H2. rewrite !resolve_app, H1, H2. simpl.
  rewrite lookup_insert_ne by done. unfold backed_up.
  destruct (top !! output_name) as [[?|?]|]; [|done|done].
  by rewrite lookup_insert_ne.
Qed.

Lemma doc_frame (root root' : node) (script_dir : path)
    (top : gmap string node) (text d name : string) :
  resolve root script_dir = Stat (Dir top) ->
  resolve root' script_dir
  = Stat (Dir (<[output_name := File text]> (backed_up top))) ->
  resolve root' ((script_dir ++ ["src"; d]) ++ [name])
  = resolve root ((script_dir ++ ["src"; d]) ++ [name]).
Proof.
  intros H1 H2. rewrite <- !app_assoc.
  apply (src_frame root root' script_dir [d; name] top text H1 H2).
Qed.

Lemma assembled_frame (root root' : node) (script_dir : path)
    (top : gmap string node) (text : string) (selection : list string) :
  resolve root script_dir = Stat (Dir top) ->
  resolve root' script_dir
  = Stat (Dir (<[output_name := File text]> (backed_up top))) ->
  assembled (script_dir ++ ["src"; "uni"]) (script_dir ++ ["src"; "mods"])
    root' selection
  = assembled (script_dir ++ ["src"; "uni"]) (script_dir ++ ["src"; "mods"])
      root selection
  /\ (all_readable (script_dir ++ ["src"; "uni"])
        (script_dir ++ ["src"; "mods"]) root selection ->
      all_readable (script_dir ++ ["src"; "uni"])
        (script_dir ++ ["src"; "mods"]) root' selection).
Proof.
  intros H1 H2.
  pose proof (doc_frame root root' script_dir top text) as Hdoc.
  split.
  - unfold assembled, base_part, universal_doc, py_core_doc, module_doc, doc.
    rewrite !(Hdoc _ _ H1 H2). do 2 f_equal.
    destruct selection as [|m l]; [done|]. do 2 f_equal.
    apply map_ext. intros x. by rewrite (Hdoc _ _ H1 H2).
  - unfold all_readable, readable. rewrite !(Hdoc _ _ H1 H2).
    intros (Hu & Hc & Hall). split; [done|]. split; [done|].
    eapply Forall_impl; [exact Hall|]. intros m Hm. simpl.
    by rewrite (Hdoc _ _ H1 H2).
Qed.

(** X19: the generator does not feed on its own output.  After a first
    successful run of [main], a second run in the world it left, with any
    selection returned by the selector, writes the text assembled from the
    documents as they were before the first run, and the backup holds
    exactly the output of the first run. *)
Theorem main_rerun (lim : nat)
    (questionary : option (string -> list choice -> M (option (list string))))
    (script_dir : path) (w w1 w' w2 : world) (top entries : gmap string node)
    (first second : list string) :
  resolve (fs w) script_dir = Stat (Dir top) ->
  not_dir (top !! output_name) ->
  not_dir (top !! backup_name) ->
  resolve (fs w) (script_dir ++ ["src"; "mods"]) = Stat (Dir entries) ->
  select_libraries lim questionary (catalog_of entries) (emit header_lines w)
  = (Return first, w1) ->
  fs w1 = fs w ->
  all_readable (script_dir ++ ["src"; "uni"]) (script_dir ++ ["src"; "mods"])
    (fs w) first ->
  main lim questionary script_dir w = (Return tt, w') ->
  select_libraries lim questionary (catalog_of entries) (emit header_lines w')
  = (Return second, w2) ->
  fs w2 = fs w' ->
  all_readable (script_dir ++ ["src"; "uni"]) (script_dir ++ ["src"; "mods"])
    (fs w) second ->
  exists w'',
    main lim questionary script_dir w' = (Return tt, w'')
    /\ resolve (fs w'') (script_dir ++ [output_name])
       = Stat (File (assembled (script_dir ++ ["src"; "uni"])
                       (script_dir ++ ["src"; "mods"]) (fs w) second))
    /\ resolve (fs w'') (script_dir ++ [backup_name])
       = Stat (File (assembled (script_dir ++ ["src"; "uni"])
                       (script_dir ++ ["src"; "mods"]) (fs w) first)).
Proof.
  intros Htop Hout Hbak Hmods Hsel1 Hfs1 Hread1 Hmain1 Hsel2 Hfs2 Hread2.
  destruct (main_run lim questionary script_dir w w1 top entries first)
    as (w0 & Hmain0 & Hr1 & _); try done.
  rewrite Hmain1 in Hmain0. injection Hmain0 as <-.
  set (t1 := assembled (script_dir ++ ["src"; "uni"])
               (script_dir ++ ["src"; "mods"]) (fs w) first) in *.
  destruct (assembled_frame (fs w) (fs w') script_dir top t1 second Htop Hr1)
    as [Htext Hread].
  destruct (main_run lim questionary script_dir w' w2
              (<[output_name := File t1]> (backed_up top)) entries second)
    as (w'' & Hmain2 & Hr2 & _); try done.
  - by rewrite lookup_insert_eq.
  - rewrite lookup_insert_ne by done. unfold backed_up.
    destruct (top !! output_name) as [[?|?]|]; [|done|done].
    by rewrite lookup_insert_eq.
  - rewrite <- Hmods.
    apply (src_frame (fs w) (fs w') script_dir ["mods"] top t1 Htop Hr1).
  - by apply Hread.
  - exists w''. split; [done|].
    rewrite !(resolve_child _ _ _ _ Hr2).
    rewrite lookup_insert_eq, Htext. split; [done|].
    rewrite lookup_insert_ne by done. unfold backed_up at 1.
    rewrite lookup_insert_eq. by rewrite lookup_insert_eq.
Qed.

Lemma main_rerun_witness :
  resolve (fs (example_world ["1"; "all"])) ["app"] = Stat (Dir example_app)
  /\ not_dir (example_app !! output_name)
  /\ not_dir (example_app !! backup_name)
  /\ resolve (fs (example_world ["1"; "all"])) (["app"] ++ ["src"; "mods"])
     = Stat (Dir example_mods)
  /\ select_libraries 4300 None (catalog_of example_mods)
       (emit header_lines (example_world ["1"; "all"]))
     = (Return ["bar"],
        snd (select_libraries 4300 None (catalog_of example_mods)
               (emit header_lines (example_world ["1"; "all"]))))
  /\ fs (snd (select_libraries 4300 None (catalog_of example_mods)
                (emit header_lines (example_world ["1"; "all"]))))
     = fs (example_world ["1"; "all"])
  /\ all_readable (["app"] ++ ["src"; "uni"]) (["app"] ++ ["src"; "mods"])
       (fs (example_world ["1"; "all"])) ["bar"]
  /\ main 4300 None ["app"] (example_world ["1"; "all"])
     = (Return tt, snd (main 4300 None ["app"] (example_world ["1"; "all"])))
  /\ select_libraries 4300 None (catalog_of example_mods)
       (emit header_lines
          (snd (main 4300 None ["app"] (example_world ["1"; "all"]))))
     = (Return ["bar"; "foo"],
        snd (select_libraries 4300 None (catalog_of example_mods)
               (emit header_lines
                  (snd (main 4300 None ["app"]
                          (example_world ["1"; "all"]))))))
  /\ fs (snd (select_libraries 4300 None (catalog_of example_mods)
                (emit header_lines
                   (snd (main 4300 None ["app"]
                           (example_world ["1"; "all"]))))))
     = fs (snd (main 4300 None ["app"] (example_world ["1"; "all"])))
  /\ all_readable (["app"] ++ ["src"; "uni"]) (["app"] ++ ["src"; "mods"])
       (fs (example_world ["1"; "all"])) ["bar"; "foo"]
  /\ exists w'',
       main 4300 None ["app"]
         (snd (main 4300 None ["app"] (example_world ["1"; "all"])))
       = (Return tt, w'')
       /\ resolve (fs w'') (["app"] ++ [output_name])
          = Stat (File (assembled (["app"] ++ ["src"; "uni"])
                          (["app"] ++ ["src"; "mods"])
                          (fs (example_world ["1"; "all"])) ["bar"; "foo"]))
       /\ resolve (fs w'') (["app"] ++ [backup_name])
          = Stat (File (assembled (["app"] ++ ["src"; "uni"])
                          (["app"] ++ ["src"; "mods"])
                          (fs (example_world ["1"; "all"])) ["bar"])).
Proof.
  assert (H5 : select_libraries 4300 None (catalog_of example_mods)
                 (emit header_lines (example_world ["1"; "all"]))
               = (Return ["bar"],
                  snd (select_libraries 4300 None (catalog_of example_mods)
                         (emit header_lines (example_world ["1"; "all"])))))
    by (by vm_compute).
  assert (H8 : main 4300 None ["app"] (example_world ["1"; "all"])
               = (Return tt,
                  snd (main 4300 None ["app"] (example_world ["1"; "all"]))))
    by (by vm_compute).
  assert (H9 : select_libraries 4300 None (catalog_of example_mods)
                 (emit header_lines
                    (snd (main 4300 None ["app"]
                            (example_world ["1"; "all"]))))
               = (Return ["bar"; "foo"],
                  snd (select_libraries 4300 None (catalog_of example_mods)
                         (emit header_lines
                            (snd (main 4300 None ["app"]
                                    (example_world ["1"; "all"])))))))
    by (by vm_compute).
  assert (H6 : fs (snd (select_libraries 4300 None (catalog_of example_mods)
                          (emit header_lines (example_world ["1"; "all"]))))
               = fs (example_world ["1"; "all"])) by (by vm_compute).
  assert (H7 : all_readable (["app"] ++ ["src"; "uni"])
                 (["app"] ++ ["src"; "mods"])
                 (fs (example_world ["1"; "all"])) ["bar"])
    by solve_readable.
  assert (H10 : fs (snd (select_libraries 4300 None (catalog_of example_mods)
                           (emit header_lines
                              (snd (main 4300 None ["app"]
                                      (example_world ["1"; "all"]))))))
                = fs (snd (main 4300 None ["app"]
                             (example_world ["1"; "all"]))))
    by (by vm_compute).
  assert (H11 : all_readable (["app"] ++ ["src"; "uni"])
                  (["app"] ++ ["src"; "mods"])
                  (fs (example_world ["1"; "all"])) ["bar"; "foo"])
    by solve_readable.
  split; [reflexivity|]. split; [exact I|]. split; [exact I|].
  split; [reflexivity|]. split; [exact H5|]. split; [exact H6|].
  split; [exact H7|]. split; [exact H8|]. split; [exact H9|].
  split; [exact H10|]. split; [exact H11|].
  exact (main_rerun 4300 None ["app"] (example_world ["1"; "all"]) _ _ _
           example_app example_mods ["bar"] ["bar"; "foo"]
           eq_refl I I eq_refl H5 H6 H7 H8 H9 H10 H11).
Defined.
